(** * temporal-ai-agent: the chat workflow, its HTTP gateway and its configuration

  A shallow embedding of the Go sources

  - [workflows/workflow.go]  ([SayHelloWorkflow], the signal loop),
  - the API server           ([handleStartWorkflow], the three signal
                              handlers, [getEnv], [getEnvBool]),
  - the worker               ([getEnv], [getEnvBool], same text),

  together with the properties of the written specification that
  concern them. *)

From stdpp Require Import base option strings list gmap.
From Stdlib Require Import ZArith Ascii DecimalString.
From Stdlib Require DecimalPos DecimalZ.


(** ** Configuration from the environment *)

Module Config.

(** The process environment: the variables that are set, with their
    values.  A variable may be set to the empty string. *)
Abbreviation Environ := (gmap string string).

(** [os.Getenv]: the value of the variable, empty when it is not set. *)
Definition Getenv (env : Environ) (key : string) : string :=
  default "" (env !! key).

(** [strconv.ParseBool]: the twelve spellings the Go library accepts;
    anything else is a syntax error ([None]). *)
Definition ParseBool (str : string) : option bool :=
  if bool_decide (str ∈ ["1"; "t"; "T"; "true"; "TRUE"; "True"]) then Some true
  else if bool_decide (str ∈ ["0"; "f"; "F"; "false"; "FALSE"; "False"]) then Some false
  else None.

(** [getEnv]: [if value := os.Getenv(key); value != "" { return value }
    return defaultValue]. *)
Definition getEnv (env : Environ) (key defaultValue : string) : string :=
  let value := Getenv env key in
  if bool_decide (value ≠ "") then value else defaultValue.

(** [getEnvBool]: the parsed value when the variable is non-empty and
    parses, the default in every other case. *)
Definition getEnvBool (env : Environ) (key : string) (defaultValue : bool) : bool :=
  let value := Getenv env key in
  if bool_decide (value ≠ "") then
    match ParseBool value with
    | Some parsed => parsed
    | None => defaultValue
    end
  else defaultValue.

(** What [main] reads before it dials the engine. [serverPort] is read
    by the API server only. *)
Record Settings := {
  hostPort : string;
  namespace : string;
  apiKey : string;
  taskQueue : string;
  tlsEnabled : bool;
  serverPort : string
}.

Definition readSettings (env : Environ) : Settings :=
  {| hostPort := getEnv env "TEMPORAL_HOST_PORT" "localhost:7233";
     namespace := getEnv env "TEMPORAL_NAMESPACE" "default";
     apiKey := getEnv env "TEMPORAL_API_KEY" "";
     taskQueue := getEnv env "TEMPORAL_TASK_QUEUE" "my-task-queue";
     tlsEnabled := getEnvBool env "TEMPORAL_TLS_ENABLED" false;
     serverPort := getEnv env "SERVER_PORT" "3000" |}.

(** [main] stops with [log.Fatal] when the API key is empty. *)
Definition startup (env : Environ) : string + Settings :=
  let cfg := readSettings env in
  if bool_decide (apiKey cfg = "") then
    inl "TEMPORAL_API_KEY environment variable is required"
  else inr cfg.

End Config.

(** ** The greeting activity *)

Module Activities.

(** Modelled from the spec: the [activities] package ([activities.Greet])
    is not among the sources.  The specification gives it as the pure
    transform [Greet(x) = "Hello, " + x + "!"]. *)
Definition Greet (name : string) : string := "Hello, " +:+ name +:+ "!".

End Activities.

(** ** The chat workflow: [SayHelloWorkflow] *)

Module Workflows.

Import Activities.

(** The three signal names the workflow listens on. *)
Inductive SignalName := user_prompt | confirm | end_chat.

#[global] Instance SignalName_eq_dec : EqDecision SignalName.
Proof. solve_decision. Defined.

(** A signal as the gateway sends it: a name and a string payload. *)
Inductive Signal :=
| UserPrompt (message : string)
| Confirm (message : string)
| EndChat (message : string).

#[global] Instance Signal_eq_dec : EqDecision Signal.
Proof. solve_decision. Defined.

Definition signalName (sig : Signal) : SignalName :=
  match sig with
  | UserPrompt _ => user_prompt
  | Confirm _ => confirm
  | EndChat _ => end_chat
  end.

Definition payload (sig : Signal) : string :=
  match sig with
  | UserPrompt m | Confirm m | EndChat m => m
  end.

(** How one activity execution ends: the engine either hands back the
    activity's value or an error (time-out after the ten second
    [StartToCloseTimeout], worker failure, ...). *)
Inductive Outcome := Succeeds | FailsWith (err : string).

(** [workflow.ExecuteActivity(ctx, activities.Greet, input).Get(ctx, &r)]:
    [inr r] when the execution succeeds, [inl err] otherwise. *)
Definition ExecuteActivity (o : Outcome) (input : string) : string + string :=
  match o with
  | Succeeds => inr (Greet input)
  | FailsWith err => inl err
  end.

(** Lines written through [workflow.GetLogger(ctx)]. *)
Inductive LogEntry :=
| Info (msg : string) (message : string)
| Error (msg : string) (error : string).

(** One execution of the workflow function.  The three channels are the
    buffers of [workflow.GetSignalChannel], oldest payload first;
    [result] is the local variable of that name; [scheduled] lists the
    inputs of the activity executions requested so far, oldest first;
    [returned] is [None] while the function is still inside its loop and
    the pair it returned afterwards. *)
Record Instance := mkInstance {
  userPromptChan : list string;
  confirmChan : list string;
  endChatChan : list string;
  result : string;
  scheduled : list string;
  logger : list LogEntry;
  returned : option (string * option string)
}.

Definition channel (k : SignalName) (s : Instance) : list string :=
  match k with
  | user_prompt => userPromptChan s
  | confirm => confirmChan s
  | end_chat => endChatChan s
  end.

Definition setChannel (k : SignalName) (q : list string) (s : Instance) : Instance :=
  match k with
  | user_prompt =>
      mkInstance q (confirmChan s) (endChatChan s) (result s) (scheduled s) (logger s) (returned s)
  | confirm =>
      mkInstance (userPromptChan s) q (endChatChan s) (result s) (scheduled s) (logger s) (returned s)
  | end_chat =>
      mkInstance (userPromptChan s) (confirmChan s) q (result s) (scheduled s) (logger s) (returned s)
  end.

Definition setResult (r : string) (s : Instance) : Instance :=
  mkInstance (userPromptChan s) (confirmChan s) (endChatChan s) r (scheduled s) (logger s) (returned s).

Definition schedule (input : string) (s : Instance) : Instance :=
  mkInstance (userPromptChan s) (confirmChan s) (endChatChan s) (result s)
    (scheduled s ++ [input]) (logger s) (returned s).

Definition log (e : LogEntry) (s : Instance) : Instance :=
  mkInstance (userPromptChan s) (confirmChan s) (endChatChan s) (result s)
    (scheduled s) (logger s ++ [e]) (returned s).

Definition ret (v : string) (err : option string) (s : Instance) : Instance :=
  mkInstance (userPromptChan s) (confirmChan s) (endChatChan s) (result s)
    (scheduled s) (logger s) (Some (v, err)).

(** Lines 10-26: the channels are obtained, [result] is declared (empty)
    and the initial greeting is executed.  On failure the function
    returns [("", err)] at once; otherwise it enters the loop. *)
Definition greeting (o : Outcome) (name : string) : Instance :=
  let s := schedule name (mkInstance [] [] [] "" [] [] None) in
  match ExecuteActivity o name with
  | inl err => ret "" (Some err) s
  | inr r => setResult r s
  end.

(** The callback registered for [userPromptChan] (lines 33-46), applied
    to the payload [c.Receive] yields. *)
Definition onUserPrompt (o : Outcome) (userMessage : string) (s : Instance) : Instance :=
  let s := log (Info "Received user_prompt signal" userMessage) s in
  let s := schedule userMessage s in
  match ExecuteActivity o userMessage with
  | inl err => log (Error "Error processing user prompt" err) s
  | inr promptResult => setResult promptResult s
  end.

(** The callback registered for [confirmChan] (lines 48-61). *)
Definition onConfirm (o : Outcome) (confirmMessage : string) (s : Instance) : Instance :=
  let s := log (Info "Received confirm signal" confirmMessage) s in
  let s := schedule ("Confirmed: " +:+ confirmMessage) s in
  match ExecuteActivity o ("Confirmed: " +:+ confirmMessage) with
  | inl err => log (Error "Error processing confirmation" err) s
  | inr confirmResult => setResult confirmResult s
  end.

(** The callback registered for [endChatChan] (lines 63-71): no activity,
    [result] is overwritten; the [return] leaves the callback only. *)
Definition onEndChat (endMessage : string) (s : Instance) : Instance :=
  let s := log (Info "Received end_chat signal" endMessage) s in
  setResult ("Chat ended: " +:+ endMessage) s.

Definition callback (k : SignalName) (o : Outcome) (m : string) (s : Instance) : Instance :=
  match k with
  | user_prompt => onUserPrompt o m s
  | confirm => onConfirm o m s
  | end_chat => onEndChat m s
  end.

(** [selector.Select(ctx)] firing the branch of channel [k]: the oldest
    payload leaves the channel and the branch's callback runs on it.
    A branch whose channel is empty cannot fire ([None]).  When several
    channels hold payloads the engine decides which branch fires, so the
    branch is an argument here. *)
Definition Select (k : SignalName) (o : Outcome) (s : Instance) : option Instance :=
  match channel k s with
  | [] => None
  | m :: rest => Some (callback k o m (setChannel k rest s))
  end.

(** The branch the Go SDK's selector takes when [Select] is called with
    payloads already buffered: the first ready one in [AddReceive] order. *)
Definition firstReady (s : Instance) : option SignalName :=
  match userPromptChan s, confirmChan s, endChatChan s with
  | _ :: _, _, _ => Some user_prompt
  | [], _ :: _, _ => Some confirm
  | [], [], _ :: _ => Some end_chat
  | [], [], [] => None
  end.

(** Whether the branch of channel [k] can fire: its channel holds a
    payload. *)
Definition canFire (k : SignalName) (s : Instance) : bool :=
  bool_decide (channel k s ≠ []).

(** [endChatChan.ReceiveAsync(&result)] (line 77): when the channel holds
    a payload it is taken out and stored into [result], and the call
    yields [true]; on an empty channel nothing changes and it yields
    [false]. *)
Definition ReceiveAsync (s : Instance) : Instance * bool :=
  match endChatChan s with
  | [] => (s, false)
  | m :: rest => (setResult m (setChannel end_chat rest s), true)
  end.

(** One pass through the body of the [for] loop (lines 29-80): [Select],
    then the [ReceiveAsync] test; [break] is followed by
    [return result, nil].  No pass is made once the function has
    returned. *)
Definition iteration (k : SignalName) (o : Outcome) (s : Instance) : option Instance :=
  match returned s with
  | Some _ => None
  | None =>
      s1 ← Select k o s;
      let '(s2, ok) := ReceiveAsync s1 in
      Some (if ok : bool then ret (result s2) None s2 else s2)
  end.

(** The engine's side of [SignalWorkflow]: the payload is appended to
    the named channel of an open execution; an execution that has
    returned takes no more signals. *)
Definition deliver (sig : Signal) (s : Instance) : option Instance :=
  match returned s with
  | Some _ => None
  | None => Some (setChannel (signalName sig) (channel (signalName sig) s ++ [payload sig]) s)
  end.

(** What happens to an execution after its greeting: signals arrive and
    the loop makes passes. *)
Inductive Event :=
| Deliver (sig : Signal)
| Pass (k : SignalName) (o : Outcome).

Definition step (e : Event) (s : Instance) : option Instance :=
  match e with
  | Deliver sig => deliver sig s
  | Pass k o => iteration k o s
  end.

Fixpoint run (evs : list Event) (s : Instance) : option Instance :=
  match evs with
  | [] => Some s
  | e :: evs' => s' ← step e s; run evs' s'
  end.

(** [SayHelloWorkflow] on input [name], with the initial activity ending
    as [o] and the environment behaving as [evs]. *)
Definition SayHelloWorkflow (name : string) (o : Outcome) (evs : list Event) : option Instance :=
  run evs (greeting o name).

(** The specification's [terminated] flag: the function has returned. *)
Definition terminated (s : Instance) : bool := bool_decide (returned s ≠ None).

(** The signal a "Received ..." log line reports. *)
Definition received (e : LogEntry) : option Signal :=
  match e with
  | Info msg m =>
      if bool_decide (msg = "Received user_prompt signal") then Some (UserPrompt m)
      else if bool_decide (msg = "Received confirm signal") then Some (Confirm m)
      else if bool_decide (msg = "Received end_chat signal") then Some (EndChat m)
      else None
  | Error _ _ => None
  end.

(** The signals the callbacks have processed so far, oldest first, as
    the log shows them. *)
Definition processed (s : Instance) : list Signal := omap received (logger s).

(** Signals that arrive one at a time, each dispatched (with its
    activity succeeding) before the next arrives. *)
Definition oneByOne (sigs : list Signal) : list Event :=
  sigs ≫= λ sig, [Deliver sig; Pass (signalName sig) Succeeds].

(** An event of a history without [EndChat] and without activity
    failure. *)
Definition calm (e : Event) : bool :=
  match e with
  | Deliver (EndChat _) => false
  | Pass _ (FailsWith _) => false
  | _ => true
  end.

(** What [current_result] is to be after the signal [sig] was the last
    one processed, according to the specification. *)
Definition resultAfter (sig : Signal) : string :=
  match sig with
  | UserPrompt m => Greet m
  | Confirm m => Greet ("Confirmed: " +:+ m)
  | EndChat m => "Chat ended: " +:+ m
  end.

(** The state an [EndChat]-free history keeps: nothing in the end-chat
    channel, the function inside its loop, and [result] written by the
    signal processed last (by the greeting [g] when there is none). *)
Definition lastWriter (g : string) (s : Instance) : Prop :=
  endChatChan s = [] ∧ returned s = None ∧
  Forall (λ sig, signalName sig ≠ end_chat) (processed s) ∧
  result s = from_option resultAfter g (last (processed s)).

(** Every channel empty and the function inside its loop: the instance
    is blocked in [Select]. *)
Definition idle (s : Instance) : Prop :=
  userPromptChan s = [] ∧ confirmChan s = [] ∧ endChatChan s = [] ∧ returned s = None.

End Workflows.

(** ** The HTTP gateway *)

Module Api.

(** *** Request and response bodies *)

Module ChatRequest.
Record t := mk { Message : string }.
End ChatRequest.

Module ChatResponse.
Record t := mk { WorkflowID : string; RunID : string; Result : string; Error : string }.
End ChatResponse.

Module SignalRequest.
Record t := mk { WorkflowID : string; RunID : string; Message : string }.
End SignalRequest.

Module SignalResponse.
Record t := mk { Success : bool; Error : string }.
End SignalResponse.

(** The keys the two request structs know, as found in a JSON object:
    absent ([None]) or present with a string. *)
Record JsonObject := {
  message : option string;
  workflow_id : option string;
  run_id : option string
}.

(** What [json.NewDecoder(r.Body).Decode(&req)] makes of a request body:
    an error, or an object whose known keys fill the struct. *)
Inductive RequestBody :=
| Undecodable
| Decodable (obj : JsonObject).

(** Decoding into a [ChatRequest]: a key that is absent leaves the field
    at Go's zero value, the empty string. *)
Definition decodeChatRequest (b : RequestBody) : option ChatRequest.t :=
  match b with
  | Undecodable => None
  | Decodable obj => Some (ChatRequest.mk (default "" (message obj)))
  end.

Definition decodeSignalRequest (b : RequestBody) : option SignalRequest.t :=
  match b with
  | Undecodable => None
  | Decodable obj =>
      Some (SignalRequest.mk (default "" (workflow_id obj)) (default "" (run_id obj))
              (default "" (message obj)))
  end.

Inductive ResponseBody :=
| PlainText (text : string)
| ChatJSON (r : ChatResponse.t)
| SignalJSON (r : SignalResponse.t)
| HealthJSON (status : string).

Record Response := {
  StatusCode : Z;
  ContentType : string;
  Body : ResponseBody
}.

Definition StatusOK : Z := 200.
Definition StatusBadRequest : Z := 400.
Definition StatusInternalServerError : Z := 500.

(** [http.Error(w, msg, code)]: a plain-text reply, the message followed
    by a newline. *)
Definition http_Error (msg : string) (code : Z) : Response :=
  {| StatusCode := code;
     ContentType := "text/plain; charset=utf-8";
     Body := PlainText (msg +:+ String "010"%char "") |}.

(** [w.Header().Set("Content-Type", "application/json")], an optional
    [w.WriteHeader(code)] and [json.NewEncoder(w).Encode(v)]. *)
Definition writeJSON (code : Z) (v : ResponseBody) : Response :=
  {| StatusCode := code; ContentType := "application/json"; Body := v |}.

(** *** The engine client, as the handlers use it *)

(** The handle [ExecuteWorkflow] returns.  [Get] blocks until the
    execution has closed: [None] stands for an execution that stays
    open, [Some (inr v)] for one that returned [v], [Some (inl e)] for
    one that failed with [e]. *)
Record WorkflowRun := {
  GetID : string;
  GetRunID : string;
  Get : option (string + string)
}.

(** [ExecuteWorkflow] takes the workflow id, the task queue and the
    workflow's argument; [SignalWorkflow] the workflow id, the run id,
    the signal name and the payload, and yields the error if any. *)
Record Client := {
  ExecuteWorkflow : string → string → string → string + WorkflowRun;
  SignalWorkflow : string → string → string → string → option string
}.

Record Server := {
  temporalClient : Client;
  taskQueue : string
}.

(** The calls a handler made on the engine client, in order. *)
Inductive EngineCall :=
| CallExecuteWorkflow (id queue input : string)
| CallGet (id : string)
| CallSignalWorkflow (workflowID runID signalName arg : string).

(** What a handler did: its engine calls, and the reply it wrote
    ([None] while it is still blocked in [Get]). *)
Record Handled := {
  calls : list EngineCall;
  reply : option Response
}.

(** [fmt.Sprintf("chat-workflow-%d", time.Now().UnixNano())]. *)
Definition workflowID (now : Z) : string :=
  "chat-workflow-" +:+ NilZero.string_of_int (Z.to_int now).

(** *** The handlers *)

(** [handleStartWorkflow] (lines 112-169); [now] is the clock reading. *)
Definition handleStartWorkflow (s : Server) (now : Z) (b : RequestBody) : Handled :=
  match decodeChatRequest b with
  | None => {| calls := []; reply := Some (http_Error "Invalid JSON" StatusBadRequest) |}
  | Some req =>
      if bool_decide (ChatRequest.Message req = "") then
        {| calls := []; reply := Some (http_Error "Message is required" StatusBadRequest) |}
      else
        let id := workflowID now in
        let started := CallExecuteWorkflow id (taskQueue s) (ChatRequest.Message req) in
        match ExecuteWorkflow (temporalClient s) id (taskQueue s) (ChatRequest.Message req) with
        | inl err =>
            {| calls := [started];
               reply := Some (writeJSON StatusInternalServerError
                                (ChatJSON (ChatResponse.mk "" "" "" err))) |}
        | inr we =>
            match Get we with
            | None => {| calls := [started; CallGet (GetID we)]; reply := None |}
            | Some (inl err) =>
                {| calls := [started; CallGet (GetID we)];
                   reply := Some (writeJSON StatusInternalServerError
                                    (ChatJSON (ChatResponse.mk (GetID we) (GetRunID we) "" err))) |}
            | Some (inr result) =>
                {| calls := [started; CallGet (GetID we)];
                   reply := Some (writeJSON StatusOK
                                    (ChatJSON (ChatResponse.mk (GetID we) (GetRunID we) result ""))) |}
            end
        end
  end.

(** The body the three signal handlers share; they differ in the signal
    name they pass to [SignalWorkflow] (and in a log line). *)
Definition forwardSignal (name : string) (s : Server) (b : RequestBody) : Handled :=
  match decodeSignalRequest b with
  | None => {| calls := []; reply := Some (http_Error "Invalid JSON" StatusBadRequest) |}
  | Some req =>
      if bool_decide (SignalRequest.WorkflowID req = "") then
        {| calls := []; reply := Some (http_Error "WorkflowID is required" StatusBadRequest) |}
      else
        let sent := CallSignalWorkflow (SignalRequest.WorkflowID req) (SignalRequest.RunID req)
                      name (SignalRequest.Message req) in
        match SignalWorkflow (temporalClient s) (SignalRequest.WorkflowID req)
                (SignalRequest.RunID req) name (SignalRequest.Message req) with
        | Some err =>
            {| calls := [sent];
               reply := Some (writeJSON StatusInternalServerError
                                (SignalJSON (SignalResponse.mk false err))) |}
        | None =>
            {| calls := [sent];
               reply := Some (writeJSON StatusOK (SignalJSON (SignalResponse.mk true ""))) |}
        end
  end.

(** [handleUserPromptSignal] (lines 172-200). *)
Definition handleUserPromptSignal : Server → RequestBody → Handled :=
  forwardSignal "user_prompt".

(** [handleConfirmSignal] (lines 203-231). *)
Definition handleConfirmSignal : Server → RequestBody → Handled :=
  forwardSignal "confirm".

(** [handleEndChatSignal] (lines 234-262). *)
Definition handleEndChatSignal : Server → RequestBody → Handled :=
  forwardSignal "end_chat".

(** [handleHealth] (lines 265-268). *)
Definition handleHealth : Handled :=
  {| calls := []; reply := Some (writeJSON StatusOK (HealthJSON "healthy")) |}.

(** The four routes that read a request body. *)
Inductive Route := StartWorkflow | SignalUserPrompt | SignalConfirm | SignalEndChat.

Definition serve (r : Route) (s : Server) (now : Z) (b : RequestBody) : Handled :=
  match r with
  | StartWorkflow => handleStartWorkflow s now b
  | SignalUserPrompt => handleUserPromptSignal s b
  | SignalConfirm => handleConfirmSignal s b
  | SignalEndChat => handleEndChatSignal s b
  end.

(** The signal name each signal route passes on. *)
Definition signalOf (r : Route) : string :=
  match r with
  | StartWorkflow => ""
  | SignalUserPrompt => "user_prompt"
  | SignalConfirm => "confirm"
  | SignalEndChat => "end_chat"
  end.

(** *** An engine that hosts the chat workflow *)

(** What [Get] sees of an execution. *)
Definition await (s : Workflows.Instance) : option (string + string) :=
  match Workflows.returned s with
  | None => None
  | Some (v, None) => Some (inr v)
  | Some (_, Some err) => Some (inl err)
  end.

(** An engine on which a started execution gets the run id [runID], its
    initial activity ends as [o], and [evs] is what then happens to it
    while the caller of [Get] waits. *)
Definition hosting (runID : string) (o : Workflows.Outcome) (evs : list Workflows.Event) : Client :=
  {| ExecuteWorkflow id _ input :=
       inr {| GetID := id; GetRunID := runID;
              Get := Workflows.SayHelloWorkflow input o evs ≫= await |};
     SignalWorkflow _ _ _ _ := None |}.

(** An engine that accepts every signal. *)
Definition quiet : Client := hosting "run-1" Workflows.Succeeds [].

End Api.

(** ** What a history delivers and what the instance did with it *)

Module History.

Import Workflows.

(** The payload an event puts on channel [k], if it puts one. *)
Definition arrival (k : SignalName) (e : Event) : option string :=
  match e with
  | Deliver sig => if bool_decide (signalName sig = k) then Some (payload sig) else None
  | Pass _ _ => None
  end.

(** The payloads a history delivers on channel [k], oldest first. *)
Definition delivered (k : SignalName) (evs : list Event) : list string :=
  omap (arrival k) evs.

(** The payload a processed signal took from channel [k], if it came
    from that channel. *)
Definition taken (k : SignalName) (sig : Signal) : option string :=
  if bool_decide (signalName sig = k) then Some (payload sig) else None.

(** The payloads the callback of channel [k] has received, oldest first. *)
Definition handled (k : SignalName) (s : Instance) : list string :=
  omap (taken k) (processed s).

(** The payload the test of line 77 took out of the end-chat channel:
    the value of a [return result, nil]. *)
Definition probed (k : SignalName) (s : Instance) : list string :=
  match k, returned s with
  | end_chat, Some (v, None) => [v]
  | _, _ => []
  end.

(** The input of the activity execution a processed signal caused. *)
Definition activityInput (sig : Signal) : option string :=
  match sig with
  | UserPrompt m => Some m
  | Confirm m => Some ("Confirmed: " +:+ m)
  | EndChat _ => None
  end.

(** The number of payloads waiting in the three channels. *)
Definition buffered (s : Instance) : nat :=
  length (userPromptChan s) + length (confirmChan s) + length (endChatChan s).

Definition isPass (e : Event) : bool :=
  match e with
  | Pass _ _ => true
  | Deliver _ => false
  end.

(** The loop passes and the deliveries of a history. *)
Definition passes (evs : list Event) : nat := length (filter (λ e, isPass e = true) evs).

Definition deliveries (evs : list Event) : nat := length (filter (λ e, isPass e = false) evs).

(** The names under which [SayHelloWorkflow] obtains its channels
    ([workflow.GetSignalChannel], lines 17-19). *)
Definition channelName (k : SignalName) : string :=
  match k with
  | user_prompt => "user_prompt"
  | confirm => "confirm"
  | end_chat => "end_chat"
  end.

End History.

(** ** The route table *)

Module Router.

Import Api.

Inductive Handler :=
| HandleStartWorkflow
| HandleUserPromptSignal
| HandleConfirmSignal
| HandleEndChatSignal
| HandleHealth.

(** The routes [main] registers (lines 99-104): path, method, handler. *)
Definition routes : list (string * string * Handler) :=
  [ ("/start-workflow", "POST", HandleStartWorkflow);
    ("/signal/user-prompt", "POST", HandleUserPromptSignal);
    ("/signal/confirm", "POST", HandleConfirmSignal);
    ("/signal/end-chat", "POST", HandleEndChatSignal);
    ("/health", "GET", HandleHealth) ].

(** The handler the router hands a request to: that of the first route
    whose path and method are those of the request.  A request that
    matches no route reaches no handler. *)
Definition routed (method path : string) : option Handler :=
  (λ found, found.2.2) <$> list_find (λ r, r.1.1 = path ∧ r.1.2 = method) routes.

Definition handle (h : Handler) (s : Server) (now : Z) (b : RequestBody) : Handled :=
  match h with
  | HandleStartWorkflow => handleStartWorkflow s now b
  | HandleUserPromptSignal => handleUserPromptSignal s b
  | HandleConfirmSignal => handleConfirmSignal s b
  | HandleEndChatSignal => handleEndChatSignal s b
  | HandleHealth => handleHealth
  end.

End Router.

(** ** The two [main] functions *)

Module Main.

Import Config.

(** The fields of [client.Options] the programs set: [TLS] tells
    whether [ConnectionOptions.TLS] was given a [tls.Config];
    [Credentials] is the key passed to [NewAPIKeyStaticCredentials]. *)
Record ClientOptions := {
  HostPort : string;
  Namespace : string;
  TLS : bool;
  Credentials : string
}.

(** How a [main] went: the options of each [client.Dial] it made, and
    either the message of the [log.Fatal] that stopped it or what it
    went on to serve. *)
Record Boot (A : Type) := mkBoot {
  dialled : list ClientOptions;
  outcome : string + A
}.

Arguments mkBoot {A} _ _.
Arguments dialled {A} _.
Arguments outcome {A} _.

(** What the worker runs: its task queue and what it registered. *)
Record Worker := {
  workerQueue : string;
  workflows : list string;
  activities : list string
}.

(** The worker's [main] (lines 16-65 of the worker); [env] is the
    environment after [godotenv.Load], [dial] is [client.Dial]. *)
Definition workerMain (env : Environ) (dial : ClientOptions → string + Api.Client)
    : Boot Worker :=
  let hostPort := getEnv env "TEMPORAL_HOST_PORT" "localhost:7233" in
  let namespace := getEnv env "TEMPORAL_NAMESPACE" "default" in
  let apiKey := getEnv env "TEMPORAL_API_KEY" "" in
  let taskQueue := getEnv env "TEMPORAL_TASK_QUEUE" "my-task-queue" in
  let tlsEnabled := getEnvBool env "TEMPORAL_TLS_ENABLED" false in
  if bool_decide (apiKey = "") then
    mkBoot [] (inl "TEMPORAL_API_KEY environment variable is required")
  else
    let clientOptions :=
      {| HostPort := hostPort; Namespace := namespace;
         TLS := tlsEnabled;
         Credentials := apiKey |} in
    match dial clientOptions with
    | inl err => mkBoot [clientOptions] (inl ("Unable to create client " +:+ err))
    | inr _ =>
        mkBoot [clientOptions]
          (inr {| workerQueue := taskQueue;
                  workflows := ["SayHelloWorkflow"];
                  activities := ["Greet"] |})
    end.

(** What the API program serves: the listen address and the server the
    handlers are methods of. *)
Record Listening := {
  addr : string;
  server : Api.Server
}.

(** The API server's [main] (lines 52-109 of the API server). *)
Definition apiMain (env : Environ) (dial : ClientOptions → string + Api.Client)
    : Boot Listening :=
  let hostPort := getEnv env "TEMPORAL_HOST_PORT" "localhost:7233" in
  let namespace := getEnv env "TEMPORAL_NAMESPACE" "default" in
  let apiKey := getEnv env "TEMPORAL_API_KEY" "" in
  let taskQueue := getEnv env "TEMPORAL_TASK_QUEUE" "my-task-queue" in
  let tlsEnabled := getEnvBool env "TEMPORAL_TLS_ENABLED" false in
  let serverPort := getEnv env "SERVER_PORT" "3000" in
  if bool_decide (apiKey = "") then
    mkBoot [] (inl "TEMPORAL_API_KEY environment variable is required")
  else
    let clientOptions :=
      {| HostPort := hostPort; Namespace := namespace;
         TLS := tlsEnabled;
         Credentials := apiKey |} in
    match dial clientOptions with
    | inl err => mkBoot [clientOptions] (inl ("Unable to create client " +:+ err))
    | inr c =>
        mkBoot [clientOptions]
          (inr {| addr := ":" +:+ serverPort;
                  server := {| Api.temporalClient := c; Api.taskQueue := taskQueue |} |})
    end.

(** The variables the two programs read. *)
Definition variables : list string :=
  ["TEMPORAL_HOST_PORT"; "TEMPORAL_NAMESPACE"; "TEMPORAL_API_KEY";
   "TEMPORAL_TASK_QUEUE"; "TEMPORAL_TLS_ENABLED"; "SERVER_PORT"].

End Main.

(** * Properties *)

(** ** Configuration *)

Section ConfigFacts.

Import Config.

Context (env : Environ).

Lemma Getenv_delete_ne (key k : string) :
  key ≠ k → Getenv (delete key env) k = Getenv env k.
Proof. intros Hne. unfold Getenv. by rewrite lookup_delete_ne. Qed.

Lemma Getenv_delete_empty (key k : string) :
  env !! key = Some "" → Getenv (delete key env) k = Getenv env k.
Proof.
  intros Hset. destruct (decide (key = k)) as [<-|Hne].
  - unfold Getenv. by rewrite lookup_delete_eq, Hset.
  - by apply Getenv_delete_ne.
Qed.

(** C9. A variable set to the empty string reads exactly like a variable
    that is not set: [getEnv] and [getEnvBool] give the default for it,
    and every setting read from the environment is the same with the
    variable removed.  A [TEMPORAL_TLS_ENABLED] that is set but is no Go
    boolean spelling is not rejected: the setting silently falls back to
    [false]. *)
Theorem empty_or_unparsable_falls_back :
  (∀ key : string, env !! key = Some "" →
     (∀ d, getEnv env key d = d) ∧ (∀ b, getEnvBool env key b = b) ∧
     (∀ d, getEnv (delete key env) key d = d) ∧
     readSettings env = readSettings (delete key env) ∧
     startup env = startup (delete key env)) ∧
  (∀ v : string, env !! "TEMPORAL_TLS_ENABLED" = Some v → ParseBool v = None →
     getEnvBool env "TEMPORAL_TLS_ENABLED" false = false ∧
     tlsEnabled (readSettings env) = false).
Proof.
  split.
  - intros key Hset.
    assert (Hget : Getenv env key = "") by (unfold Getenv; by rewrite Hset).
    assert (Hsame : ∀ k, Getenv (delete key env) k = Getenv env k)
      by (intros k; by apply Getenv_delete_empty).
    assert (Hcfg : readSettings env = readSettings (delete key env)).
    { unfold readSettings, getEnv, getEnvBool. by rewrite !Hsame. }
    repeat split.
    + intros d. unfold getEnv. by rewrite Hget.
    + intros b. unfold getEnvBool. by rewrite Hget.
    + intros d. unfold getEnv. by rewrite Hsame, Hget.
    + exact Hcfg.
    + unfold startup. by rewrite Hcfg.
  - intros v Hset Hbad.
    assert (getEnvBool env "TEMPORAL_TLS_ENABLED" false = false) as Hb.
    { unfold getEnvBool, Getenv. rewrite Hset. simpl.
      case_bool_decide; [by rewrite Hbad | done]. }
    split; [exact Hb | exact Hb].
Qed.

End ConfigFacts.

Example tls_spelled_yes :
  Config.getEnvBool {[ "TEMPORAL_TLS_ENABLED" := "yes" ]} "TEMPORAL_TLS_ENABLED" false = false.
Proof. vm_compute. reflexivity. Qed.

Example tls_spelled_true :
  Config.getEnvBool {[ "TEMPORAL_TLS_ENABLED" := "true" ]} "TEMPORAL_TLS_ENABLED" false = true.
Proof. vm_compute. reflexivity. Qed.

(** The theorem at an environment with an empty namespace and a
    misspelt TLS switch. *)
Lemma empty_or_unparsable_falls_back_witness :
  let env : Config.Environ :=
    {[ "TEMPORAL_NAMESPACE" := ""; "TEMPORAL_TLS_ENABLED" := "yes" ]} in
  Config.getEnv env "TEMPORAL_NAMESPACE" "default" = "default" ∧
  Config.tlsEnabled (Config.readSettings env) = false.
Proof.
  intros env.
  destruct (empty_or_unparsable_falls_back env) as [Hempty Hbool].
  split.
  - apply (Hempty "TEMPORAL_NAMESPACE"). vm_compute. reflexivity.
  - apply (Hbool "yes"); vm_compute; reflexivity.
Defined.

(** ** The workflow's callbacks and loop *)

Section LoopFacts.

Import Activities Workflows.

(** What a callback leaves alone: the channels and the return slot. *)
Lemma callback_frame (k : SignalName) (o : Outcome) (m : string) (s : Instance) :
  userPromptChan (callback k o m s) = userPromptChan s ∧
  confirmChan (callback k o m s) = confirmChan s ∧
  endChatChan (callback k o m s) = endChatChan s ∧
  returned (callback k o m s) = returned s.
Proof. destruct k, o; cbn; auto. Qed.

Lemma setChannel_returned (k : SignalName) (q : list string) (s : Instance) :
  returned (setChannel k q s) = returned s.
Proof. by destruct k. Qed.

Lemma setChannel_result (k : SignalName) (q : list string) (s : Instance) :
  result (setChannel k q s) = result s.
Proof. by destruct k. Qed.

Lemma setChannel_same (k : SignalName) (q : list string) (s : Instance) :
  channel k (setChannel k q s) = q.
Proof. by destruct k. Qed.

(** The branch the SDK's selector takes on buffered payloads can fire,
    and no branch can when it names none. *)
Lemma firstReady_canFire (s : Instance) :
  match firstReady s with
  | Some k => canFire k s = true ∧ ∀ o, is_Some (Select k o s)
  | None => ∀ k, canFire k s = false
  end.
Proof.
  unfold firstReady, canFire, Select.
  destruct (userPromptChan s) eqn:Hu, (confirmChan s) eqn:Hc, (endChatChan s) eqn:He;
    cbn; rewrite ?Hu, ?Hc, ?He; try (split; [done | by eauto]).
  intros []; cbn; by rewrite ?Hu, ?Hc, ?He.
Qed.

(** [Select] does not touch the return slot, and takes from the
    end-chat channel at most its oldest payload. *)
Lemma Select_end_chat_channel (k : SignalName) (o : Outcome) (s s1 : Instance) :
  Select k o s = Some s1 →
  returned s1 = returned s ∧ ∃ pre, endChatChan s = pre ++ endChatChan s1.
Proof.
  unfold Select. destruct (channel k s) as [|m rest] eqn:Hch; [done|].
  intros [= <-]. destruct (callback_frame k o m (setChannel k rest s)) as (_ & _ & -> & ->).
  rewrite setChannel_returned. split; [done|].
  destruct k; cbn in *; [by exists []|by exists []|]. exists [m]. by rewrite Hch.
Qed.

(** A pass, spelled out: the function returns in it exactly when the
    test of line 77 finds a payload, and then returns that payload. *)
Lemma iteration_unfold (k : SignalName) (o : Outcome) (s s1 : Instance) :
  returned s = None → Select k o s = Some s1 →
  iteration k o s =
    Some (match endChatChan s1 with
          | [] => s1
          | m :: rest => ret m None (setResult m (setChannel end_chat rest s1))
          end).
Proof.
  intros Hrun Hsel. unfold iteration. rewrite Hrun, Hsel. cbn. unfold ReceiveAsync.
  by destruct (endChatChan s1).
Qed.

(** With nothing in the end-chat channel the test of line 77 is false
    and the pass is just the fired callback. *)
Lemma iteration_no_end_chat (k : SignalName) (o : Outcome) (m : string)
    (rest : list string) (s : Instance) :
  k ≠ end_chat → returned s = None → endChatChan s = [] → channel k s = m :: rest →
  iteration k o s = Some (callback k o m (setChannel k rest s)).
Proof.
  intros Hk Hrun Hec Hch. unfold iteration, Select. rewrite Hrun, Hch. cbn.
  unfold ReceiveAsync.
  destruct (callback_frame k o m (setChannel k rest s)) as (_ & _ & -> & _).
  assert (endChatChan (setChannel k rest s) = []) as ->; [|done].
  by destruct k.
Qed.

(** The two callbacks taken alone.  The [user_prompt] callback executes
    the Greet activity on the payload [m] and the [confirm] callback on
    ["Confirmed: " + m]; when the execution succeeds [result] becomes
    the activity's output, when it fails the error is logged and
    [result] stays as it was; neither callback makes the function
    return.  A pass that fires one of them while no end-chat payload is
    waiting is the callback alone, and the instance is still in its
    loop afterwards. *)
Theorem prompt_and_confirm_dispatch (o : Outcome) (m : string) (s : Instance) :
  let up := onUserPrompt o m s in
  let cf := onConfirm o m s in
  (scheduled up = scheduled s ++ [m] ∧
   scheduled cf = scheduled s ++ ["Confirmed: " +:+ m]) ∧
  (returned up = returned s ∧ returned cf = returned s) ∧
  match o with
  | Succeeds =>
      ExecuteActivity Succeeds m = inr (result up) ∧
      ExecuteActivity Succeeds ("Confirmed: " +:+ m) = inr (result cf) ∧
      result up = Greet m ∧ result cf = Greet ("Confirmed: " +:+ m)
  | FailsWith err =>
      result up = result s ∧ result cf = result s ∧
      last (logger up) = Some (Error "Error processing user prompt" err) ∧
      last (logger cf) = Some (Error "Error processing confirmation" err)
  end ∧
  (∀ k rest, k ≠ end_chat → returned s = None → endChatChan s = [] →
     channel k s = m :: rest →
     ∃ s', iteration k o s = Some s' ∧ s' = callback k o m (setChannel k rest s) ∧
           returned s' = None ∧ channel k s' = rest).
Proof.
  cbn zeta. split; [by destruct o|]. split; [by destruct o|]. split.
  - destruct o; cbn; [done|]. by rewrite !last_snoc.
  - intros k rest Hk Hrun Hec Hch. eexists. split; [by apply iteration_no_end_chat|].
    split; [done|].
    destruct (callback_frame k o m (setChannel k rest s)) as (Hu & Hc & _ & Hr).
    rewrite Hr, setChannel_returned. split; [done|].
    destruct k; [| |done]; unfold channel; [rewrite Hu|rewrite Hc]; done.
Qed.

(** The theorem at an instance that has greeted "Hello World" and holds
    one user prompt. *)
Lemma prompt_and_confirm_dispatch_witness :
  let s := setChannel user_prompt ["What's the weather?"] (greeting Succeeds "Hello World") in
  ∃ s', iteration user_prompt Succeeds s = Some s' ∧
        result s' = "Hello, What's the weather?!" ∧ returned s' = None.
Proof.
  intros s.
  destruct (prompt_and_confirm_dispatch Succeeds "What's the weather?" s)
    as (_ & _ & _ & Hpass).
  destruct (Hpass user_prompt []) as (s' & Hit & -> & Hrun & _);
    [done | reflexivity | reflexivity | reflexivity |].
  exists (callback user_prompt Succeeds "What's the weather?" (setChannel user_prompt [] s)).
  split; [exact Hit|]. split; [reflexivity | exact Hrun].
Defined.

(** C7. Two [Confirm(m)] payloads dispatched one after the other in the
    loop: each dispatch executes the activity on ["Confirmed: " + m]
    (two executions, nothing is deduplicated); after the first, which
    succeeds, [result] is [Greet("Confirmed: " + m)] and the second
    leaves it at that value. *)
Theorem confirm_twice_same_result (m : string) (o2 : Outcome) (s : Instance) :
  let c1 := onConfirm Succeeds m s in
  let c2 := onConfirm o2 m c1 in
  (result c1 = Greet ("Confirmed: " +:+ m) ∧ result c2 = result c1 ∧
   scheduled c2 = scheduled s ++ ["Confirmed: " +:+ m; "Confirmed: " +:+ m]) ∧
  (∀ rest, returned s = None → endChatChan s = [] → confirmChan s = m :: m :: rest →
     ∃ s1 s2,
       iteration confirm Succeeds s = Some s1 ∧ iteration confirm o2 s1 = Some s2 ∧
       result s1 = Greet ("Confirmed: " +:+ m) ∧ result s2 = result s1 ∧
       scheduled s1 = scheduled s ++ ["Confirmed: " +:+ m] ∧
       scheduled s2 = scheduled s1 ++ ["Confirmed: " +:+ m] ∧
       confirmChan s2 = rest ∧ returned s2 = None).
Proof.
  cbn zeta. split.
  - destruct o2; cbn; by rewrite <- ?app_assoc.
  - intros rest Hrun Hec Hch.
    pose (s1 := callback confirm Succeeds m (setChannel confirm (m :: rest) s)).
    pose (s2 := callback confirm o2 m (setChannel confirm rest s1)).
    exists s1, s2.
    assert (iteration confirm Succeeds s = Some s1) as H1
      by (by apply iteration_no_end_chat).
    assert (iteration confirm o2 s1 = Some s2) as H2
      by (apply iteration_no_end_chat; subst s1; cbn; done).
    repeat split; try done; subst s2 s1; by destruct o2.
Qed.

(** The theorem at an instance that holds "yes" twice. *)
Lemma confirm_twice_same_result_witness :
  let s := setChannel confirm ["yes"; "yes"] (greeting Succeeds "Hello World") in
  ∃ s1 s2,
    iteration confirm Succeeds s = Some s1 ∧ iteration confirm Succeeds s1 = Some s2 ∧
    result s1 = "Hello, Confirmed: yes!" ∧ result s2 = "Hello, Confirmed: yes!" ∧
    scheduled s2 = ["Hello World"; "Confirmed: yes"; "Confirmed: yes"].
Proof.
  intros s.
  destruct (confirm_twice_same_result "yes" Succeeds s) as [_ Hpass].
  destruct (Hpass []) as (s1 & s2 & H1 & H2 & Hr1 & Hr2 & Hs1 & Hs2 & _);
    [reflexivity | reflexivity | reflexivity |].
  exists s1, s2. split; [exact H1|]. split; [exact H2|].
  split; [exact Hr1|]. split; [by rewrite Hr2, Hr1|].
  by rewrite Hs2, Hs1.
Defined.

(** C4, as the code has it.  An activity execution that fails inside the
    [user_prompt] or [confirm] callback is logged, and the callback
    changes neither [result] nor the return slot.  The pass that fired
    the callback leaves the instance in its loop, with [result] as it
    was, provided no end-chat payload is waiting when the pass reaches
    the test of line 77.  The initial greeting is handled differently:
    when it fails the function returns [("", err)] at once, logs
    nothing and never reaches the loop. *)
Theorem activity_failure_in_loop_absorbed (err m name : string) (s : Instance) :
  (result (onUserPrompt (FailsWith err) m s) = result s ∧
   returned (onUserPrompt (FailsWith err) m s) = returned s ∧
   logger (onUserPrompt (FailsWith err) m s) =
     logger s ++ [Info "Received user_prompt signal" m;
                  Error "Error processing user prompt" err] ∧
   result (onConfirm (FailsWith err) m s) = result s ∧
   returned (onConfirm (FailsWith err) m s) = returned s ∧
   logger (onConfirm (FailsWith err) m s) =
     logger s ++ [Info "Received confirm signal" m;
                  Error "Error processing confirmation" err]) ∧
  (∀ k rest, k ≠ end_chat → returned s = None → endChatChan s = [] →
     channel k s = m :: rest →
     ∃ s', iteration k (FailsWith err) s = Some s' ∧ result s' = result s ∧
           returned s' = None ∧ channel k s' = rest ∧
           logger s' =
             logger s ++
             match k with
             | user_prompt => [Info "Received user_prompt signal" m;
                               Error "Error processing user prompt" err]
             | _ => [Info "Received confirm signal" m;
                     Error "Error processing confirmation" err]
             end) ∧
  (returned (greeting (FailsWith err) name) = Some ("", Some err) ∧
   logger (greeting (FailsWith err) name) = [] ∧
   ∀ e, step e (greeting (FailsWith err) name) = None).
Proof.
  split; [|split].
  - cbn. by rewrite <- !app_assoc.
  - intros k rest Hk Hrun Hec Hch. eexists. split; [by apply iteration_no_end_chat|].
    destruct k; [| |done]; cbn; rewrite <- app_assoc; by rewrite ?Hrun.
  - repeat split. by intros [sig|k o].
Qed.

(** The theorem at an instance that has greeted "Hello World" and holds
    one confirmation whose activity times out. *)
Lemma activity_failure_in_loop_absorbed_witness :
  let s := setChannel confirm ["yes"] (greeting Succeeds "Hello World") in
  ∃ s', iteration confirm (FailsWith "activity timed out") s = Some s' ∧
        result s' = "Hello, Hello World!" ∧ returned s' = None.
Proof.
  intros s.
  destruct (activity_failure_in_loop_absorbed "activity timed out" "yes" "Hello World" s)
    as (_ & Hpass & _).
  destruct (Hpass confirm []) as (s' & Hit & Hres & Hrun & _);
    [done | reflexivity | reflexivity | reflexivity |].
  exists s'. split; [exact Hit|]. split; [exact Hres | exact Hrun].
Defined.

(** C4 as written fails at the initial greeting: when that execution
    fails the instance is terminated, with the error, nothing is logged,
    and the instance takes no signal. *)
Lemma initial_greeting_failure_terminates :
  let s := greeting (FailsWith "activity timed out") "Hello World" in
  terminated s = true ∧ returned s = Some ("", Some "activity timed out") ∧
  logger s = [] ∧ deliver (UserPrompt "hi") s = None ∧
  iteration user_prompt Succeeds s = None.
Proof. repeat split. Qed.

(** C5, evaluated on the code.  The two callbacks do what the claim
    says: the activity is executed on [m], on ["Confirmed: " + m] for a
    confirmation, and its output (the old value, on failure) is in
    [result] when the callback ends.  But the pass does not end there.
    When an end-chat payload [p] is waiting, the test of line 77 takes
    it out, stores it over [result] and the function returns [p]: the
    loop does not stay in its waiting state and [result] is not the
    activity's output.  It is the same defect of line 77 that keeps a
    lone [EndChat] from ending the instance. *)
Theorem prompt_pass_ends_on_waiting_end_chat (name m p : string) (o : Outcome) :
  (∃ s, SayHelloWorkflow name Succeeds
          [Deliver (UserPrompt m); Deliver (EndChat p); Pass user_prompt o] = Some s ∧
        processed s = [UserPrompt m] ∧ scheduled s = [name; m] ∧
        endChatChan s = [] ∧ result s = p ∧ returned s = Some (p, None)) ∧
  (∃ s, SayHelloWorkflow name Succeeds
          [Deliver (Confirm m); Deliver (EndChat p); Pass confirm o] = Some s ∧
        processed s = [Confirm m] ∧ scheduled s = [name; "Confirmed: " +:+ m] ∧
        endChatChan s = [] ∧ result s = p ∧ returned s = Some (p, None)) ∧
  (∃ s, SayHelloWorkflow name Succeeds [Deliver (UserPrompt m); Pass user_prompt Succeeds]
        = Some s ∧ result s = Greet m ∧ returned s = None) ∧
  (∃ s, SayHelloWorkflow name Succeeds [Deliver (Confirm m); Pass confirm Succeeds]
        = Some s ∧ result s = Greet ("Confirmed: " +:+ m) ∧ returned s = None).
Proof.
  destruct o; repeat split; eexists; (split; [reflexivity|]); done.
Qed.

Example prompt_then_goodbye :
  SayHelloWorkflow "Hello World" Succeeds
    [Deliver (UserPrompt "hi"); Deliver (EndChat "bye"); Pass user_prompt Succeeds]
  = Some {| userPromptChan := []; confirmChan := []; endChatChan := [];
            result := "bye";
            scheduled := ["Hello World"; "hi"];
            logger := [Info "Received user_prompt signal" "hi"];
            returned := Some ("bye", None) |}.
Proof. reflexivity. Qed.

(** *** Histories without [EndChat] *)

Lemma processed_callback (k : SignalName) (o : Outcome) (m : string) (s : Instance) :
  ∃ sig, signalName sig = k ∧ payload sig = m ∧
         processed (callback k o m s) = processed s ++ [sig].
Proof.
  destruct k; [exists (UserPrompt m)|exists (Confirm m)|exists (EndChat m)];
    (split; [done|]); (split; [done|]); unfold processed;
    destruct o; cbn; rewrite ?omap_app; cbn; by rewrite ?app_nil_r.
Qed.

Lemma processed_setChannel (k : SignalName) (q : list string) (s : Instance) :
  processed (setChannel k q s) = processed s.
Proof. by destruct k. Qed.

Lemma result_callback_Succeeds (sig : Signal) (s : Instance) :
  result (callback (signalName sig) Succeeds (payload sig) s) = resultAfter sig.
Proof. by destruct sig. Qed.

Lemma lastWriter_step (g : string) (e : Event) (s s' : Instance) :
  calm e = true → step e s = Some s' → lastWriter g s → lastWriter g s'.
Proof.
  intros Hcalm Hstep (Hec & Hrun & Hproc & Hres).
  destruct e as [sig|k o]; cbn in Hstep.
  - unfold deliver in Hstep. rewrite Hrun in Hstep. injection Hstep as <-.
    unfold lastWriter. rewrite setChannel_returned, setChannel_result, processed_setChannel.
    repeat split; try done.
    destruct sig; cbn in *; done.
  - destruct o as [|err]; [|done].
    destruct (decide (k = end_chat)) as [->|Hk].
    { unfold iteration, Select in Hstep. rewrite Hrun in Hstep. cbn in Hstep.
      by rewrite Hec in Hstep. }
    destruct (channel k s) as [|m rest] eqn:Hch.
    { unfold iteration, Select in Hstep. rewrite Hrun, Hch in Hstep. done. }
    rewrite (iteration_no_end_chat k Succeeds m rest s) in Hstep by done.
    injection Hstep as <-.
    destruct (callback_frame k Succeeds m (setChannel k rest s)) as (_ & _ & Hec' & Hr').
    destruct (processed_callback k Succeeds m (setChannel k rest s)) as (sig & Hsig & Hm & Hp).
    unfold lastWriter. rewrite Hec', Hr', Hp, setChannel_returned, processed_setChannel.
    rewrite last_snoc. cbn. repeat split.
    + destruct k; cbn; done.
    + done.
    + apply Forall_app. split; [done|]. apply Forall_singleton. by rewrite Hsig.
    + rewrite <- Hsig, <- Hm. apply result_callback_Succeeds.
Qed.

Lemma lastWriter_run (g : string) (evs : list Event) :
  ∀ s s', forallb calm evs = true → run evs s = Some s' → lastWriter g s → lastWriter g s'.
Proof.
  induction evs as [|e evs IH]; intros s s' Hcalm Hrun Hinv; cbn in *.
  - by injection Hrun as <-.
  - apply andb_prop in Hcalm as [He Hevs].
    destruct (step e s) as [s1|] eqn:Hstep; [|done]. cbn in Hrun.
    eapply IH; [done | exact Hrun |]. by eapply lastWriter_step.
Qed.

Lemma lastWriter_greeting (name : string) :
  lastWriter (Activities.Greet name) (greeting Succeeds name).
Proof. repeat split. cbn. constructor. Qed.

Lemma idle_deliver_pass (sig : Signal) (s : Instance) :
  idle s → signalName sig ≠ end_chat →
  ∃ s', run [Deliver sig; Pass (signalName sig) Succeeds] s = Some s' ∧ idle s' ∧
        processed s' = processed s ++ [sig] ∧ result s' = resultAfter sig.
Proof.
  intros (Hu & Hc & He & Hr) Hsig. cbn. unfold deliver. rewrite Hr. cbn.
  rewrite (iteration_no_end_chat (signalName sig) Succeeds (payload sig) []); cycle 1.
  - done.
  - by rewrite setChannel_returned.
  - destruct sig; cbn in *; done.
  - rewrite setChannel_same. destruct sig; cbn; by rewrite ?Hu, ?Hc.
  - eexists. split; [done|]. destruct sig; cbn in *; try done;
      unfold idle, processed; cbn; rewrite omap_app; repeat split; done.
Qed.

Lemma run_app (evs1 evs2 : list Event) (s : Instance) :
  run (evs1 ++ evs2) s = run evs1 s ≫= run evs2.
Proof.
  revert s. induction evs1 as [|e evs1 IH]; intros s; cbn; [done|].
  destruct (step e s) as [s1|]; cbn; [apply IH | done].
Qed.

Lemma oneByOne_run (sigs : list Signal) :
  ∀ s, idle s → Forall (λ sig, signalName sig ≠ end_chat) sigs →
  ∃ s', run (oneByOne sigs) s = Some s' ∧ idle s' ∧
        processed s' = processed s ++ sigs ∧
        result s' = from_option resultAfter (result s) (last sigs).
Proof.
  induction sigs as [|sig sigs IH]; intros s Hidle Hall.
  - exists s. cbn. by rewrite app_nil_r.
  - apply Forall_cons in Hall as [Hsig Hall].
    destruct (idle_deliver_pass sig s Hidle Hsig) as (s1 & Hrun1 & Hidle1 & Hp1 & Hr1).
    destruct (IH s1 Hidle1 Hall) as (s' & Hrun' & Hidle' & Hp' & Hr').
    exists s'. repeat split; try apply Hidle'.
    + change (oneByOne (sig :: sigs))
        with ([Deliver sig; Pass (signalName sig) Succeeds] ++ oneByOne sigs).
      rewrite run_app, Hrun1. exact Hrun'.
    + rewrite Hp', Hp1. by rewrite <- app_assoc.
    + rewrite Hr', Hr1, last_cons. by destruct (last sigs).
Qed.

(** C2. Let the initial greeting succeed and let a history contain
    [UserPrompt] and [Confirm] signals only, every activity execution
    succeeding.  Then the instance is still in its loop and [result] is
    the output for the signal processed last: [Greet(m)] after
    [UserPrompt(m)], [Greet("Confirmed: " + m)] after [Confirm(m)], the
    greeting when no signal has been processed; what earlier signals
    wrote is gone.  In particular, for signals that arrive and are
    processed one at a time the history runs to its end and the signal
    processed last is the one delivered last. *)
Theorem last_writer_wins (name : string) :
  (∀ evs s, forallb calm evs = true → SayHelloWorkflow name Succeeds evs = Some s →
     returned s = None ∧
     Forall (λ sig, signalName sig ≠ end_chat) (processed s) ∧
     result s = match last (processed s) with
                | None => Greet name
                | Some (UserPrompt m) => Greet m
                | Some (Confirm m) => Greet ("Confirmed: " +:+ m)
                | Some (EndChat m) => result s
                end) ∧
  (∀ sigs, Forall (λ sig, signalName sig ≠ end_chat) sigs →
     ∃ s, SayHelloWorkflow name Succeeds (oneByOne sigs) = Some s ∧
          processed s = sigs ∧ returned s = None ∧
          result s = match last sigs with
                     | None => Greet name
                     | Some (UserPrompt m) => Greet m
                     | Some (Confirm m) => Greet ("Confirmed: " +:+ m)
                     | Some (EndChat m) => result s
                     end).
Proof.
  split.
  - intros evs s Hcalm Hrun.
    destruct (lastWriter_run (Greet name) evs _ s Hcalm Hrun (lastWriter_greeting name))
      as (_ & Hr & Hall & Hres).
    repeat split; [done..|].
    rewrite Hres. by destruct (last (processed s)) as [[m|m|m]|].
  - intros sigs Hall.
    destruct (oneByOne_run sigs (greeting Succeeds name)) as (s & Hrun & Hidle & Hp & Hres);
      [done | done |].
    exists s. unfold SayHelloWorkflow. rewrite Hrun, Hp, Hres.
    repeat split; [apply Hidle|].
    by destruct (last sigs) as [[m|m|m]|].
Qed.

(** The theorem at two short histories after the greeting of
    "Hello World". *)
Lemma last_writer_wins_witness :
  (∃ s, SayHelloWorkflow "Hello World" Succeeds
          (oneByOne [UserPrompt "What's the weather?"; Confirm "yes"]) = Some s ∧
        result s = "Hello, Confirmed: yes!") ∧
  (∀ s, SayHelloWorkflow "Hello World" Succeeds
          [Deliver (Confirm "yes"); Deliver (UserPrompt "What's the weather?");
           Pass confirm Succeeds; Pass user_prompt Succeeds] = Some s →
        result s = "Hello, What's the weather?!").
Proof.
  destruct (last_writer_wins "Hello World") as [Hany Hone]. split.
  - destruct (Hone [UserPrompt "What's the weather?"; Confirm "yes"])
      as (s & Hrun & _ & _ & Hres); [by repeat constructor|].
    exists s. split; [exact Hrun | exact Hres].
  - intros s Hrun. pose proof Hrun as Hlast.
    apply Hany in Hlast as (_ & _ & Hres); [|reflexivity].
    injection Hrun as <-. exact Hres.
Defined.

(** Payloads that wait in different channels are processed in the order
    the selector fires their branches, which need not be the order in
    which they arrived: here the prompt arrived last and the
    confirmation was processed last. *)
Example processing_order_decides :
  SayHelloWorkflow "Hello World" Succeeds
    [Deliver (Confirm "yes"); Deliver (UserPrompt "What's the weather?");
     Pass user_prompt Succeeds; Pass confirm Succeeds]
  = Some {| userPromptChan := []; confirmChan := []; endChatChan := [];
            result := "Hello, Confirmed: yes!";
            scheduled := ["Hello World"; "What's the weather?"; "Confirmed: yes"];
            logger := [Info "Received user_prompt signal" "What's the weather?";
                       Info "Received confirm signal" "yes"];
            returned := None |}.
Proof. reflexivity. Qed.

(** *** Leaving the loop *)

(** C1, evaluated on the code.  One [EndChat(m)] delivered to an
    instance in its loop is dispatched ([result] becomes
    ["Chat ended: " + m]) but the function does not return: the channel
    is empty when line 77 tests it, so the instance stays in the loop
    and goes on taking signals.  The function returns only when line 77
    finds a further end-chat payload, and then it returns that payload
    as it came, without the ["Chat ended: "] prefix. *)
Theorem end_chat_alone_does_not_end (name m m' p : string) :
  (∃ s, SayHelloWorkflow name Succeeds [Deliver (EndChat m); Pass end_chat Succeeds] = Some s ∧
        processed s = [EndChat m] ∧ result s = "Chat ended: " +:+ m ∧
        returned s = None ∧ terminated s = false ∧
        is_Some (deliver (UserPrompt p) s)) ∧
  (∃ s, SayHelloWorkflow name Succeeds
          [Deliver (EndChat m); Deliver (EndChat m'); Pass end_chat Succeeds] = Some s ∧
        processed s = [EndChat m] ∧ returned s = Some (m', None)) ∧
  (∃ s, SayHelloWorkflow name Succeeds
          [Deliver (UserPrompt p); Deliver (EndChat m); Pass user_prompt Succeeds] = Some s ∧
        processed s = [UserPrompt p] ∧ returned s = Some (m, None)).
Proof. repeat split; eexists; (split; [reflexivity|]); repeat split; by eexists. Qed.

Example end_chat_goodbye :
  SayHelloWorkflow "Hello World" Succeeds [Deliver (EndChat "Goodbye"); Pass end_chat Succeeds]
  = Some {| userPromptChan := []; confirmChan := []; endChatChan := [];
            result := "Chat ended: Goodbye";
            scheduled := ["Hello World"];
            logger := [Info "Received end_chat signal" "Goodbye"];
            returned := None |}.
Proof. reflexivity. Qed.

(** Whether the activity of a pass fails has no bearing on whether the
    function returns in that pass. *)
Lemma iteration_terminated_outcome (k : SignalName) (o o' : Outcome) (s : Instance) :
  terminated <$> iteration k o s = terminated <$> iteration k o' s.
Proof.
  unfold iteration. destruct (returned s); [done|]. unfold Select.
  destruct (channel k s) as [|m rest]; [done|]. cbn. unfold ReceiveAsync.
  destruct (callback_frame k o m (setChannel k rest s)) as (_ & _ & -> & Hr).
  destruct (callback_frame k o' m (setChannel k rest s)) as (_ & _ & -> & Hr').
  destruct (endChatChan (setChannel k rest s)); cbn; unfold terminated; cbn;
    [by rewrite Hr, Hr' | done].
Qed.

(** C6, as the code has it.  The function returns at most once: a step
    is taken only by an instance that has not returned, and none after
    it has.  Inside the loop the return happens only in a pass in which
    line 77 takes a payload out of the end-chat channel, and that
    payload is the returned value; delivering a signal never does it,
    and the outcome of the pass's activity makes no difference.  Before
    the loop, the function returns exactly when the initial greeting
    fails. *)
Theorem terminated_once_by_end_chat_probe (name : string) (o0 : Outcome) :
  (terminated (greeting o0 name) = true ↔ ∃ err, o0 = FailsWith err) ∧
  (∀ e s s', step e s = Some s' →
     terminated s = false ∧
     (terminated s' = true →
        (∃ k o, e = Pass k o) ∧
        ∃ m pre, endChatChan s = pre ++ m :: endChatChan s' ∧ returned s' = Some (m, None)) ∧
     (terminated s' = true → ∀ e', step e' s' = None)) ∧
  (∀ k o o' s, terminated <$> iteration k o s = terminated <$> iteration k o' s).
Proof.
  split; [|split].
  - split.
    + destruct o0 as [|err]; [by vm_compute | eauto].
    + by intros [err ->].
  - intros e s s' Hstep.
    assert (returned s = None) as Hrun.
    { destruct e; cbn in Hstep; unfold deliver, iteration in Hstep;
        by destruct (returned s). }
    split; [unfold terminated; by rewrite Hrun|]. split.
    + intros Hterm. destruct e as [sig|k o]; cbn in Hstep.
      { unfold deliver in Hstep. rewrite Hrun in Hstep. injection Hstep as <-.
        unfold terminated in Hterm. by rewrite setChannel_returned, Hrun in Hterm. }
      split; [eauto|].
      destruct (Select k o s) as [s1|] eqn:Hsel;
        [|unfold iteration in Hstep; by rewrite Hrun, Hsel in Hstep].
      rewrite (iteration_unfold k o s s1 Hrun Hsel) in Hstep. injection Hstep as <-.
      destruct (Select_end_chat_channel k o s s1 Hsel) as (Hr1 & pre & Hpre).
      destruct (endChatChan s1) as [|m rest] eqn:Hec.
      * unfold terminated in Hterm. by rewrite Hr1, Hrun in Hterm.
      * exists m, pre. by split.
    + intros Hterm e'. unfold terminated in Hterm.
      destruct (returned s') eqn:Hr'; [|done].
      destruct e'; cbn; unfold deliver, iteration; by rewrite Hr'.
  - apply iteration_terminated_outcome.
Qed.

(** The theorem at the pass that returns "Goodbye". *)
Lemma terminated_once_by_end_chat_probe_witness :
  let s := setChannel end_chat ["Goodbye"]
             (setChannel user_prompt ["hi"] (greeting Succeeds "Hello World")) in
  ∃ s', step (Pass user_prompt Succeeds) s = Some s' ∧ terminated s = false ∧
        returned s' = Some ("Goodbye", None).
Proof.
  intros s.
  destruct (terminated_once_by_end_chat_probe "Hello World" Succeeds) as (_ & Hstep & _).
  eexists. split; [reflexivity|].
  destruct (Hstep (Pass user_prompt Succeeds) s _ eq_refl) as (Hfalse & _ & _).
  split; [exact Hfalse | reflexivity].
Defined.

(** C6 as written fails twice over: an instance terminates without any
    [EndChat] when its initial greeting fails, and an instance that has
    consumed an [EndChat] is not terminated. *)
Lemma terminated_not_tied_to_end_chat :
  (let s := greeting (FailsWith "activity timed out") "Hello World" in
   terminated s = true ∧ processed s = [] ∧ endChatChan s = []) ∧
  (∃ s, SayHelloWorkflow "Hello World" Succeeds
          [Deliver (EndChat "Goodbye"); Pass end_chat Succeeds] = Some s ∧
        processed s = [EndChat "Goodbye"] ∧ endChatChan s = [] ∧ terminated s = false).
Proof. split; [done|]. eexists. split; [reflexivity|]. done. Qed.

End LoopFacts.

(** ** The gateway *)

Section GatewayFacts.

Import Workflows Api.

Context (srv : Server) (now : Z).

(** A body the decoder refuses is answered with 400 by each of the four
    handlers, before the engine is called. *)
Lemma serve_Undecodable (r : Route) :
  serve r srv now Undecodable =
    {| calls := []; reply := Some (http_Error "Invalid JSON" StatusBadRequest) |}.
Proof. by destruct r. Qed.

(** The signal handlers on a body that decodes. *)
Lemma serve_signal (r : Route) (obj : JsonObject) :
  r ≠ StartWorkflow →
  serve r srv now (Decodable obj) =
    forwardSignal (signalOf r) srv (Decodable obj).
Proof. by destruct r. Qed.

(** C8. A request body that does not decode as JSON is answered with
    HTTP 400 and the plain-text body "Invalid JSON"; a start request
    whose [message] is absent or empty is answered with HTTP 400; a
    signal request whose [workflow_id] is absent or empty is answered
    with HTTP 400; in each case the handler has made no call on the
    engine client. *)
Theorem malformed_requests_get_400 (r : Route) (obj : JsonObject) :
  (calls (serve r srv now Undecodable) = [] ∧
   reply (serve r srv now Undecodable) =
     Some {| StatusCode := 400; ContentType := "text/plain; charset=utf-8";
             Body := PlainText ("Invalid JSON" +:+ String (ascii_of_nat 10) "") |}) ∧
  (message obj = None ∨ message obj = Some "" →
   calls (handleStartWorkflow srv now (Decodable obj)) = [] ∧
   reply (handleStartWorkflow srv now (Decodable obj)) =
     Some (http_Error "Message is required" 400)) ∧
  (r ≠ StartWorkflow → workflow_id obj = None ∨ workflow_id obj = Some "" →
   calls (serve r srv now (Decodable obj)) = [] ∧
   reply (serve r srv now (Decodable obj)) =
     Some (http_Error "WorkflowID is required" 400)).
Proof.
  split; [|split].
  - by rewrite serve_Undecodable.
  - intros Hmsg. unfold handleStartWorkflow. cbn.
    by destruct Hmsg as [-> | ->].
  - intros Hr Hid. rewrite serve_signal by done. unfold forwardSignal. cbn.
    by destruct Hid as [-> | ->].
Qed.

(** C10. A signal request with a non-empty [workflow_id] and no (or an
    empty) [message] passes validation: the handler makes exactly one
    [SignalWorkflow] call, with the empty string as payload, and when
    the engine reports no error the reply is HTTP 200 with
    [success: true].  An absent [run_id] goes to the engine as the empty
    string. *)
Theorem signal_message_not_validated (r : Route) (obj : JsonObject) (id : string) :
  r ≠ StartWorkflow → workflow_id obj = Some id → id ≠ "" →
  message obj = None ∨ message obj = Some "" →
  let run := default "" (run_id obj) in
  calls (serve r srv now (Decodable obj)) = [CallSignalWorkflow id run (signalOf r) ""] ∧
  (run_id obj = None → run = "") ∧
  (SignalWorkflow (temporalClient srv) id run (signalOf r) "" = None →
   reply (serve r srv now (Decodable obj)) =
     Some {| StatusCode := 200; ContentType := "application/json";
            Body := SignalJSON {| SignalResponse.Success := true;
                                  SignalResponse.Error := "" |} |}) ∧
  (∀ err, SignalWorkflow (temporalClient srv) id run (signalOf r) "" = Some err →
   reply (serve r srv now (Decodable obj)) =
     Some {| StatusCode := 500; ContentType := "application/json";
            Body := SignalJSON {| SignalResponse.Success := false;
                                  SignalResponse.Error := err |} |}).
Proof.
  intros Hr Hid Hne Hmsg run. rewrite serve_signal by done.
  unfold forwardSignal. cbn. rewrite Hid. cbn.
  rewrite bool_decide_eq_false_2 by done.
  assert (default "" (message obj) = "") as -> by (by destruct Hmsg as [-> | ->]).
  fold run. repeat split.
  - by destruct (SignalWorkflow _ _ _ _ _).
  - intros Hnone. subst run. by rewrite Hnone.
  - by intros ->.
  - by intros err ->.
Qed.

End GatewayFacts.

Section GatewayExamples.

Import Workflows Api.

(** The theorem at bodies without [message] and without [workflow_id]. *)
Lemma malformed_requests_get_400_witness :
  let srv := {| temporalClient := quiet; taskQueue := "my-task-queue" |} in
  let empty := {| message := None; workflow_id := None; run_id := None |} in
  handleStartWorkflow srv 1 (Decodable empty) =
    {| calls := []; reply := Some (http_Error "Message is required" 400) |} ∧
  handleEndChatSignal srv (Decodable empty) =
    {| calls := []; reply := Some (http_Error "WorkflowID is required" 400) |}.
Proof.
  intros srv empty.
  destruct (malformed_requests_get_400 srv 1 SignalEndChat empty) as (_ & Hstart & Hsig).
  destruct Hstart as [Hc Hr]; [left; reflexivity|].
  destruct Hsig as [Hc' Hr']; [done | left; reflexivity |].
  split.
  - destruct (handleStartWorkflow srv 1 (Decodable empty)). cbn in *. by rewrite Hc, Hr.
  - change (handleEndChatSignal srv (Decodable empty))
      with (serve SignalEndChat srv 1 (Decodable empty)).
    destruct (serve SignalEndChat srv 1 (Decodable empty)). cbn in *. by rewrite Hc', Hr'.
Defined.

(** The theorem at a confirm request that names a workflow and nothing
    else. *)
Lemma signal_message_not_validated_witness :
  let srv := {| temporalClient := quiet; taskQueue := "my-task-queue" |} in
  let obj := {| message := None; workflow_id := Some "chat-workflow-1"; run_id := None |} in
  calls (handleConfirmSignal srv (Decodable obj)) =
    [CallSignalWorkflow "chat-workflow-1" "" "confirm" ""] ∧
  reply (handleConfirmSignal srv (Decodable obj)) =
    Some {| StatusCode := 200; ContentType := "application/json";
            Body := SignalJSON {| SignalResponse.Success := true;
                                  SignalResponse.Error := "" |} |}.
Proof.
  intros srv obj.
  destruct (signal_message_not_validated srv 1 SignalConfirm obj "chat-workflow-1")
    as (Hcalls & _ & Hok & _); [done | reflexivity | done | left; reflexivity |].
  split; [exact Hcalls | apply Hok; reflexivity].
Defined.

(** C3, evaluated on the code.  After a successful greeting of
    "Hello World" the instance holds [Greet("Hello World")] and is in
    its loop.  [handleStartWorkflow] however waits in [Get] for the
    workflow function to return: while the instance is in its loop the
    request has no reply, and the reply that comes when the function
    has returned carries the function's return value, not the
    greeting. *)
Theorem start_request_waits_for_return (now : Z) (queue runID : string) :
  let body := Decodable {| message := Some "Hello World"; workflow_id := None; run_id := None |} in
  let srv evs := {| temporalClient := hosting runID Succeeds evs; taskQueue := queue |} in
  (result (greeting Succeeds "Hello World") = "Hello, Hello World!" ∧
   returned (greeting Succeeds "Hello World") = None) ∧
  handleStartWorkflow (srv []) now body =
    {| calls := [CallExecuteWorkflow (workflowID now) queue "Hello World";
                 CallGet (workflowID now)];
       reply := None |} ∧
  reply (handleStartWorkflow
           (srv [Deliver (UserPrompt "What's the weather?"); Pass user_prompt Succeeds])
           now body) = None ∧
  reply (handleStartWorkflow
           (srv [Deliver (UserPrompt "What's the weather?"); Deliver (EndChat "Goodbye");
                 Pass user_prompt Succeeds])
           now body) =
    Some (writeJSON StatusOK
            (ChatJSON (ChatResponse.mk (workflowID now) runID "Goodbye" ""))).
Proof. repeat split. Qed.

End GatewayExamples.

(** * Further properties of the code *)

(** ** Start-up of the worker and of the API server *)

Section StartupFacts.

Import Config Main.

Context (dial : ClientOptions → string + Api.Client).

Lemma getEnv_cases (env : Environ) (key d : string) :
  (getEnv env key d = d ∧ (env !! key = None ∨ env !! key = Some "")) ∨
  (env !! key = Some (getEnv env key d) ∧ getEnv env key d ≠ "").
Proof.
  unfold getEnv, Getenv. destruct (env !! key) as [v|]; cbn.
  - case_bool_decide as Hv; [by right|]. left. split; [done|]. right.
    f_equal. by destruct (decide (v = "")).
  - left. split; [done | by left].
Qed.

(** [getEnv] yields the variable's own value or the default, and with a
    non-empty default it never yields the empty string. *)
Theorem getEnv_value_or_default (env : Environ) (key d : string) :
  (getEnv env key d = d ∨ env !! key = Some (getEnv env key d)) ∧
  (d ≠ "" → getEnv env key d ≠ "") ∧
  (∀ v, env !! key = Some v → v ≠ "" → getEnv env key d = v).
Proof.
  destruct (getEnv_cases env key d) as [[Hd Hunset]|[Hset Hne]].
  - split; [by left|]. split; [by rewrite Hd|].
    intros v Hv Hvne. destruct Hunset as [Hn|He]; rewrite Hv in *; congruence.
  - split; [by right|]. split; [done|]. intros v Hv _. congruence.
Qed.


Lemma getEnv_ext (env env' : Environ) (key d : string) :
  Getenv env key = Getenv env' key → getEnv env key d = getEnv env' key d.
Proof. unfold getEnv. by intros ->. Qed.

Lemma getEnvBool_ext (env env' : Environ) (key : string) (d : bool) :
  Getenv env key = Getenv env' key → getEnvBool env key d = getEnvBool env' key d.
Proof. unfold getEnvBool. by intros ->. Qed.

(** The two programs look at six variables only, and only at what
    [os.Getenv] shows of them: environments that read alike on the six
    start both programs alike. *)
Theorem mains_read_six_variables (env env' : Environ) :
  (∀ key, key ∈ variables → Getenv env key = Getenv env' key) →
  workerMain env dial = workerMain env' dial ∧ apiMain env dial = apiMain env' dial.
Proof.
  intros Hsame. unfold workerMain, apiMain.
  rewrite !(getEnv_ext env env'), !(getEnvBool_ext env env');
    first done; apply Hsame; unfold variables; set_solver.
Qed.


(** Neither program dials the engine without an API key: when the key
    is unset or empty both stop with the same fatal message before any
    [client.Dial]; otherwise both dial once, with the same options, and
    these carry the key, a non-empty address and a non-empty namespace. *)
Theorem mains_dial_with_api_key (env : Environ) :
  let w := workerMain env dial in
  let a := apiMain env dial in
  dialled w = dialled a ∧
  (env !! "TEMPORAL_API_KEY" = None ∨ env !! "TEMPORAL_API_KEY" = Some "" →
   dialled w = [] ∧
   outcome w = inl "TEMPORAL_API_KEY environment variable is required" ∧
   outcome a = inl "TEMPORAL_API_KEY environment variable is required") ∧
  (∀ key, env !! "TEMPORAL_API_KEY" = Some key → key ≠ "" →
   ∃ opts, dialled w = [opts] ∧ Credentials opts = key ∧
           HostPort opts ≠ "" ∧ Namespace opts ≠ "").
Proof.
  cbn zeta. unfold workerMain, apiMain.
  destruct (getEnv_cases env "TEMPORAL_API_KEY" "") as [[Hd Hunset]|[Hset Hne]].
  - rewrite Hd. cbn. split; [done|]. split; [done|].
    intros key Hkey Hkne. destruct Hunset as [Hn|He]; congruence.
  - rewrite bool_decide_eq_false_2 by done. split.
    + by destruct (dial _).
    + split.
      * intros [Hn|He]; congruence.
      * intros key Hkey Hkne. eexists. split; [by destruct (dial _)|].
        cbn. split; [congruence|].
        split; by apply getEnv_value_or_default.
Qed.


Lemma ParseBool_true (v : string) :
  ParseBool v = Some true ↔ v ∈ ["1"; "t"; "T"; "true"; "TRUE"; "True"].
Proof.
  unfold ParseBool. repeat case_bool_decide; split; try done.
Qed.

(** TLS is switched on for exactly six spellings of
    [TEMPORAL_TLS_ENABLED]; every other value, and no value, leaves the
    connection without TLS. *)
Theorem tls_on_for_six_spellings (env : Environ) (opts : ClientOptions) :
  opts ∈ dialled (workerMain env dial) ∨ opts ∈ dialled (apiMain env dial) →
  (TLS opts = true ↔
   ∃ v, env !! "TEMPORAL_TLS_ENABLED" = Some v ∧
        v ∈ ["1"; "t"; "T"; "true"; "TRUE"; "True"]).
Proof.
  intros Hin.
  assert (TLS opts = getEnvBool env "TEMPORAL_TLS_ENABLED" false) as ->.
  { unfold workerMain, apiMain in Hin.
    destruct (bool_decide (getEnv env "TEMPORAL_API_KEY" "" = "")); cbn in Hin;
      [destruct Hin as [Hin|Hin]; by apply elem_of_nil in Hin|].
    destruct Hin as [Hin|Hin]; destruct (dial _); cbn in Hin;
      apply list_elem_of_singleton in Hin; by subst. }
  unfold getEnvBool, Getenv.
  destruct (env !! "TEMPORAL_TLS_ENABLED") as [v|]; cbn.
  - case_bool_decide as Hv.
    + destruct (ParseBool v) as [[]|] eqn:Hp.
      * split; [|done]. intros _. exists v. split; [done|]. by apply ParseBool_true.
      * split; [done|]. intros (v' & [= <-] & Hin'). apply ParseBool_true in Hin'. congruence.
      * split; [done|]. intros (v' & [= <-] & Hin'). apply ParseBool_true in Hin'. congruence.
    + split; [done|]. intros (v' & [= <-] & Hin'). subst.
      rewrite !elem_of_cons, elem_of_nil in Hin'. decompose [or] Hin'; done.
  - split; [done|]. by intros (v' & ? & _).
Qed.


(** The worker polls the task queue the API server starts workflows on:
    when both programs are up their queues are the same, non-empty
    name, and it is the queue every start request passes to
    [ExecuteWorkflow]. *)
Theorem worker_and_server_share_queue (env : Environ) (w : Worker) (a : Listening) :
  outcome (workerMain env dial) = inr w → outcome (apiMain env dial) = inr a →
  workerQueue w = Api.taskQueue (server a) ∧ workerQueue w ≠ "" ∧
  workflows w = ["SayHelloWorkflow"] ∧
  ∀ now obj m, Api.message obj = Some m → m ≠ "" →
    ∃ rest, Api.calls (Api.handleStartWorkflow (server a) now (Api.Decodable obj)) =
              Api.CallExecuteWorkflow (Api.workflowID now) (workerQueue w) m :: rest.
Proof.
  unfold workerMain, apiMain.
  destruct (bool_decide (getEnv env "TEMPORAL_API_KEY" "" = "")); [done|].
  destruct (dial _) as [err|c]; [done|]. cbn. intros [= <-] [= <-]. cbn.
  split; [done|]. split; [by apply getEnv_value_or_default|]. split; [done|].
  intros now obj m Hm Hne. unfold Api.handleStartWorkflow. cbn. rewrite Hm. cbn.
  rewrite bool_decide_eq_false_2 by done.
  destruct (Api.ExecuteWorkflow c _ _ _) as [err|we]; [by eexists|].
  destruct (Api.Get we) as [[?|?]|]; by eexists.
Qed.

End StartupFacts.

Section StartupWitnesses.

Import Config Main.

Let dial : ClientOptions → string + Api.Client := λ _, inr Api.quiet.

Lemma getEnv_value_or_default_witness :
  getEnv {[ "SERVER_PORT" := "8080" ]} "SERVER_PORT" "3000" = "8080" ∧
  getEnv {[ "SERVER_PORT" := "" ]} "SERVER_PORT" "3000" ≠ "".
Proof.
  split.
  - apply (getEnv_value_or_default {[ "SERVER_PORT" := "8080" ]} "SERVER_PORT" "3000");
      [vm_compute; reflexivity | done].
  - apply (getEnv_value_or_default {[ "SERVER_PORT" := "" ]} "SERVER_PORT" "3000"). done.
Defined.

Lemma mains_read_six_variables_witness :
  workerMain {[ "TEMPORAL_API_KEY" := "k"; "HOME" := "/root" ]} dial =
  workerMain {[ "TEMPORAL_API_KEY" := "k"; "SERVER_PORT" := "" ]} dial.
Proof.
  apply mains_read_six_variables.
  intros key Hkey. unfold variables in Hkey.
  repeat (apply elem_of_cons in Hkey as [->|Hkey]; [vm_compute; reflexivity|]).
  by apply elem_of_nil in Hkey.
Defined.

Lemma mains_dial_with_api_key_witness :
  dialled (workerMain ∅ dial) = [] ∧
  ∃ opts, dialled (workerMain {[ "TEMPORAL_API_KEY" := "secret" ]} dial) = [opts] ∧
          Credentials opts = "secret".
Proof.
  split.
  - apply (mains_dial_with_api_key dial ∅). by left.
  - destruct (mains_dial_with_api_key dial {[ "TEMPORAL_API_KEY" := "secret" ]})
      as (_ & _ & Hkey).
    destruct (Hkey "secret") as (opts & Hd & Hc & _); [vm_compute; reflexivity | done |].
    by exists opts.
Defined.

Lemma tls_on_for_six_spellings_witness :
  let env : Environ := {[ "TEMPORAL_API_KEY" := "k"; "TEMPORAL_TLS_ENABLED" := "yes" ]} in
  let opts := {| HostPort := "localhost:7233"; Namespace := "default";
                 TLS := false; Credentials := "k" |} in
  ¬ ∃ v, env !! "TEMPORAL_TLS_ENABLED" = Some v ∧ v ∈ ["1"; "t"; "T"; "true"; "TRUE"; "True"].
Proof.
  intros env opts Hsix.
  assert (TLS opts = true); [|done].
  apply (tls_on_for_six_spellings dial env opts); [|exact Hsix].
  left. vm_compute. constructor.
Defined.

Lemma worker_and_server_share_queue_witness :
  let env : Environ := {[ "TEMPORAL_API_KEY" := "k"; "TEMPORAL_TASK_QUEUE" := "chat" ]} in
  let w := {| workerQueue := "chat"; workflows := ["SayHelloWorkflow"];
              activities := ["Greet"] |} in
  let a := {| addr := ":3000";
              server := {| Api.temporalClient := Api.quiet; Api.taskQueue := "chat" |} |} in
  workerQueue w = Api.taskQueue (server a) ∧ workerQueue w ≠ "".
Proof.
  intros env w a.
  destruct (worker_and_server_share_queue dial env w a) as (Hq & Hne & _);
    [vm_compute; reflexivity | vm_compute; reflexivity |].
  by split.
Defined.

End StartupWitnesses.

(** ** Histories of the workflow *)

Section HistoryFacts.

Import Activities Workflows History.

Lemma step_running (e : Event) (s s' : Instance) :
  step e s = Some s' → returned s = None.
Proof.
  destruct e; cbn; unfold deliver, iteration; by destruct (returned s).
Qed.

(** A property that holds after the greeting and that every step of a
    running instance carries over holds at the end of every history. *)
Lemma history_invariant (Inv : list Event → Instance → Prop) (s0 : Instance) :
  Inv [] s0 →
  (∀ evs s e s', Inv evs s → returned s = None → step e s = Some s' → Inv (evs ++ [e]) s') →
  ∀ evs s, run evs s0 = Some s → Inv evs s.
Proof.
  intros H0 Hstep evs. induction evs as [|e evs IH] using rev_ind; intros s Hrun.
  - by injection Hrun as <-.
  - rewrite run_app in Hrun. destruct (run evs s0) as [s1|] eqn:Hrun1; [|done].
    cbn in Hrun. destruct (step e s1) as [s2|] eqn:He; [|done].
    injection Hrun as <-. eapply Hstep; [by apply IH | by eapply step_running | done].
Qed.

Lemma handled_setChannel (k k0 : SignalName) (q : list string) (s : Instance) :
  handled k (setChannel k0 q s) = handled k s.
Proof. unfold handled. by rewrite processed_setChannel. Qed.

Lemma handled_callback (k k0 : SignalName) (o : Outcome) (m : string) (s : Instance) :
  handled k (callback k0 o m s) =
    handled k s ++ (if bool_decide (k0 = k) then [m] else []).
Proof.
  destruct (processed_callback k0 o m s) as (sig & Hsig & Hm & Hp).
  unfold handled. rewrite Hp, omap_app. f_equal. cbn. unfold taken.
  rewrite Hsig, Hm. by case_bool_decide.
Qed.

Lemma channel_callback (k k0 : SignalName) (o : Outcome) (m : string) (s : Instance) :
  channel k (callback k0 o m s) = channel k s.
Proof.
  destruct (callback_frame k0 o m s) as (Hu & Hc & He & _). by destruct k.
Qed.

Lemma channel_setChannel (k k0 : SignalName) (q : list string) (s : Instance) :
  channel k (setChannel k0 q s) = if bool_decide (k0 = k) then q else channel k s.
Proof. by destruct k, k0. Qed.

(** [Select] moves one payload from the head of its channel to the end
    of what that channel's callback has received. *)
Lemma Select_conserves (k k0 : SignalName) (o : Outcome) (s s1 : Instance) :
  Select k0 o s = Some s1 →
  handled k s1 ++ channel k s1 = handled k s ++ channel k s.
Proof.
  unfold Select. destruct (channel k0 s) as [|m rest] eqn:Hch; [done|].
  intros [= <-]. rewrite handled_callback, channel_callback, handled_setChannel,
    channel_setChannel.
  case_bool_decide as Hk; [subst k0; rewrite Hch|]; by rewrite <- app_assoc.
Qed.

(** A pass moves at most one further payload, from the head of the
    end-chat channel into the return value. *)
Lemma iteration_conserves (k k0 : SignalName) (o : Outcome) (s s' : Instance) :
  returned s = None → iteration k0 o s = Some s' →
  handled k s' ++ probed k s' ++ channel k s' = handled k s ++ channel k s.
Proof.
  intros Hrun Hit.
  destruct (Select k0 o s) as [s1|] eqn:Hsel;
    [|unfold iteration in Hit; by rewrite Hrun, Hsel in Hit].
  rewrite (iteration_unfold k0 o s s1 Hrun Hsel) in Hit. injection Hit as <-.
  rewrite <- (Select_conserves k k0 o s s1 Hsel).
  destruct (Select_end_chat_channel k0 o s s1 Hsel) as [Hr1 _].
  destruct (endChatChan s1) as [|m rest] eqn:Hec.
  - unfold probed. rewrite Hr1, Hrun. by destruct k.
  - unfold probed, handled. destruct k; cbn; by rewrite ?Hec.
Qed.

Lemma deliver_conserves (k : SignalName) (sig : Signal) (s s' : Instance) :
  deliver sig s = Some s' →
  handled k s' ++ probed k s' ++ channel k s' =
    handled k s ++ channel k s ++ delivered k [Deliver sig].
Proof.
  unfold deliver. destruct (returned s) eqn:Hrun; [done|]. intros [= <-].
  rewrite handled_setChannel, channel_setChannel. unfold probed.
  rewrite setChannel_returned, Hrun. unfold delivered. cbn.
  case_bool_decide as Hk; [subst k; destruct sig | destruct k]; cbn;
    by rewrite ?app_nil_r.
Qed.

Lemma run_conserves (k : SignalName) (s0 : Instance) (evs : list Event) (s : Instance) :
  handled k s0 ++ probed k s0 ++ channel k s0 = [] →
  run evs s0 = Some s →
  handled k s ++ probed k s ++ channel k s = delivered k evs.
Proof.
  intros H0. revert evs s.
  apply (history_invariant
           (λ evs s, handled k s ++ probed k s ++ channel k s = delivered k evs));
    [done|].
  intros evs s e s' Hinv Hrun Hstep.
  assert (probed k s = []) as Hp by (unfold probed; rewrite Hrun; by destruct k).
  rewrite Hp in Hinv. cbn in Hinv.
  unfold delivered. rewrite omap_app. fold (delivered k evs). rewrite <- Hinv.
  destruct e as [sig|k0 o']; cbn in Hstep.
  - rewrite (deliver_conserves k sig s s' Hstep). by rewrite <- !app_assoc.
  - rewrite (iteration_conserves k k0 o' s s' Hrun Hstep). cbn. by rewrite app_nil_r.
Qed.

(** No payload is lost, duplicated or overtaken on its channel: at the
    end of every history, what the callback of a channel has received,
    then (for the end-chat channel) the payload that became the return
    value, then what still waits in the channel, is exactly what was
    delivered on that channel, in the order of delivery. *)
Theorem payloads_conserved (name : string) (o : Outcome) (evs : list Event)
    (s : Instance) (k : SignalName) :
  SayHelloWorkflow name o evs = Some s →
  handled k s ++ probed k s ++ channel k s = delivered k evs.
Proof. apply run_conserves. destruct o, k; reflexivity. Qed.

Lemma payloads_conserved_witness :
  let evs := [Deliver (EndChat "a"); Deliver (EndChat "b"); Deliver (EndChat "c");
              Pass end_chat Succeeds] in
  let s := {| userPromptChan := []; confirmChan := []; endChatChan := ["c"];
              result := "b"; scheduled := ["Hello World"];
              logger := [Info "Received end_chat signal" "a"];
              returned := Some ("b", None) |} in
  handled end_chat s ++ probed end_chat s ++ channel end_chat s = ["a"; "b"; "c"].
Proof.
  intros evs s.
  exact (payloads_conserved "Hello World" Succeeds evs s end_chat eq_refl).
Defined.

(** *** Activities and passes *)

Lemma callback_scheduled (k : SignalName) (o : Outcome) (m : string) (s : Instance) :
  ∃ sig, signalName sig = k ∧ processed (callback k o m s) = processed s ++ [sig] ∧
         scheduled (callback k o m s) = scheduled s ++ omap activityInput [sig].
Proof.
  destruct k; [exists (UserPrompt m)|exists (Confirm m)|exists (EndChat m)];
    (split; [done|]); unfold processed; destruct o; cbn;
    rewrite ?omap_app; cbn; by rewrite ?app_nil_r.
Qed.

Lemma iteration_scheduled (k : SignalName) (o : Outcome) (s s' : Instance) :
  iteration k o s = Some s' →
  ∃ sig, signalName sig = k ∧ processed s' = processed s ++ [sig] ∧
         scheduled s' = scheduled s ++ omap activityInput [sig].
Proof.
  intros Hit. pose proof (step_running (Pass k o) s s' Hit) as Hrun.
  destruct (Select k o s) as [s1|] eqn:Hsel;
    [|unfold iteration in Hit; by rewrite Hrun, Hsel in Hit].
  rewrite (iteration_unfold k o s s1 Hrun Hsel) in Hit. injection Hit as <-.
  unfold Select in Hsel. destruct (channel k s) as [|m rest]; [done|].
  injection Hsel as <-.
  destruct (callback_scheduled k o m (setChannel k rest s)) as (sig & Hsig & Hp & Hs).
  exists sig. rewrite processed_setChannel in Hp.
  assert (scheduled (setChannel k rest s) = scheduled s) as Hsc by (by destruct k).
  rewrite Hsc in Hs. split; [done|].
  destruct (endChatChan (callback k o m (setChannel k rest s))); by split.
Qed.

(** The activity executions an instance has requested are the initial
    greeting and then, in the order of processing, one per [UserPrompt]
    (on the payload) and one per [Confirm] (on ["Confirmed: "] and the
    payload); an [EndChat] causes none.  This holds whether the
    executions succeed or fail. *)
Theorem activities_follow_signals (name : string) (o : Outcome) (evs : list Event)
    (s : Instance) :
  SayHelloWorkflow name o evs = Some s →
  scheduled s = name :: omap activityInput (processed s).
Proof.
  revert evs s.
  apply (history_invariant (λ _ s, scheduled s = name :: omap activityInput (processed s))).
  - by destruct o.
  - intros _ s e s' Hinv _ Hstep. destruct e as [sig|k o']; cbn in Hstep.
    + unfold deliver in Hstep. destruct (returned s); [done|]. injection Hstep as <-.
      rewrite processed_setChannel. by destruct sig.
    + destruct (iteration_scheduled k o' s s' Hstep) as (sig & _ & -> & ->).
      by rewrite Hinv, omap_app.
Qed.

Lemma activities_follow_signals_witness :
  let s := {| userPromptChan := []; confirmChan := []; endChatChan := [];
              result := "Chat ended: bye";
              scheduled := ["Hello World"; "Confirmed: yes"];
              logger := [Info "Received confirm signal" "yes";
                         Error "Error processing confirmation" "timeout";
                         Info "Received end_chat signal" "bye"];
              returned := None |} in
  scheduled s = "Hello World" :: omap activityInput (processed s).
Proof.
  intros s.
  exact (activities_follow_signals "Hello World" Succeeds
           [Deliver (Confirm "yes"); Pass confirm (FailsWith "timeout");
            Deliver (EndChat "bye"); Pass end_chat Succeeds] s eq_refl).
Defined.

Lemma buffered_channels (s : Instance) :
  buffered s =
    length (channel user_prompt s) + length (channel confirm s) + length (channel end_chat s).
Proof. reflexivity. Qed.

Lemma Select_buffered (k : SignalName) (o : Outcome) (s s1 : Instance) :
  Select k o s = Some s1 → S (buffered s1) = buffered s.
Proof.
  unfold Select. destruct (channel k s) as [|m rest] eqn:Hch; [done|].
  intros [= <-]. rewrite !buffered_channels, !channel_callback.
  destruct k; cbn in *; rewrite Hch; cbn; lia.
Qed.

Lemma iteration_buffered (k : SignalName) (o : Outcome) (s s' : Instance) :
  iteration k o s = Some s' →
  S (length (probed end_chat s') + buffered s') = buffered s.
Proof.
  intros Hit. pose proof (step_running (Pass k o) s s' Hit) as Hrun.
  destruct (Select k o s) as [s1|] eqn:Hsel;
    [|unfold iteration in Hit; by rewrite Hrun, Hsel in Hit].
  rewrite (iteration_unfold k o s s1 Hrun Hsel) in Hit. injection Hit as <-.
  rewrite <- (Select_buffered k o s s1 Hsel).
  destruct (Select_end_chat_channel k o s s1 Hsel) as [Hr1 _].
  destruct (endChatChan s1) as [|m rest] eqn:Hec.
  - unfold probed. by rewrite Hr1, Hrun.
  - unfold probed, buffered. cbn. rewrite Hec. cbn. lia.
Qed.

Lemma passes_snoc (evs : list Event) (e : Event) :
  passes (evs ++ [e]) = passes evs + (if isPass e then 1 else 0) ∧
  deliveries (evs ++ [e]) = deliveries evs + (if isPass e then 0 else 1).
Proof.
  unfold passes, deliveries. rewrite !filter_app, !length_app.
  destruct e; cbn; auto.
Qed.

(** Every pass of the loop processes exactly one signal, so the loop
    never runs ahead of its signals: the passes made, the payload that
    became the return value (if any) and the payloads still waiting add
    up to the signals delivered. *)
Theorem one_pass_per_signal (name : string) (o : Outcome) (evs : list Event)
    (s : Instance) :
  SayHelloWorkflow name o evs = Some s →
  length (processed s) = passes evs ∧
  passes evs + length (probed end_chat s) + buffered s = deliveries evs.
Proof.
  revert evs s.
  apply (history_invariant
           (λ evs s, length (processed s) = passes evs ∧
                     passes evs + length (probed end_chat s) + buffered s = deliveries evs)).
  - by destruct o.
  - intros evs s e s' [Hproc Hsum] Hrun Hstep.
    assert (probed end_chat s = []) as Hp by (unfold probed; by rewrite Hrun).
    rewrite Hp in Hsum. cbn in Hsum.
    destruct (passes_snoc evs e) as [-> ->].
    destruct e as [sig|k o']; cbn in Hstep; cbn [isPass].
    + unfold deliver in Hstep. rewrite Hrun in Hstep. injection Hstep as <-.
      rewrite processed_setChannel. unfold probed. rewrite setChannel_returned, Hrun.
      split; [lia|]. cbn.
      assert (buffered (setChannel (signalName sig)
                          (channel (signalName sig) s ++ [payload sig]) s) = S (buffered s))
        as ->; [|lia].
      unfold buffered. destruct sig; cbn; rewrite length_app; cbn; lia.
    + destruct (iteration_scheduled k o' s s' Hstep) as (sig & _ & -> & _).
      pose proof (iteration_buffered k o' s s' Hstep). rewrite length_app.
      change (length [sig]) with 1. lia.
Qed.

Lemma one_pass_per_signal_witness :
  let s := {| userPromptChan := []; confirmChan := []; endChatChan := ["c"];
              result := "b"; scheduled := ["Hello World"];
              logger := [Info "Received end_chat signal" "a"];
              returned := Some ("b", None) |} in
  length (processed s) = 1 ∧ 1 + length (probed end_chat s) + buffered s = 3.
Proof.
  intros s.
  exact (one_pass_per_signal "Hello World" Succeeds
           [Deliver (EndChat "a"); Deliver (EndChat "b"); Deliver (EndChat "c");
            Pass end_chat Succeeds] s eq_refl).
Defined.

(** *** How the function returns *)

Lemma run_returned_nil (evs : list Event) (s s' : Instance) :
  returned s ≠ None → run evs s = Some s' → evs = [] ∧ s' = s.
Proof.
  intros Hret. destruct evs as [|e evs]; cbn; [by intros [= <-]|].
  destruct (step e s) as [s1|] eqn:Hstep; [|done].
  apply step_running in Hstep. done.
Qed.

Lemma run_return_value (s0 : Instance) (evs : list Event) (s : Instance) :
  returned s0 = None → run evs s0 = Some s →
  ∀ v e, returned s = Some (v, e) → e = None ∧ v = result s.
Proof.
  intros H0. revert evs s.
  apply (history_invariant (λ _ s, ∀ v e, returned s = Some (v, e) → e = None ∧ v = result s)).
  - intros v e. by rewrite H0.
  - intros _ s e s' _ Hrun Hstep v err. destruct e as [sig|k o]; cbn in Hstep.
    + unfold deliver in Hstep. rewrite Hrun in Hstep. injection Hstep as <-.
      by rewrite setChannel_returned, Hrun.
    + destruct (Select k o s) as [s1|] eqn:Hsel;
        [|unfold iteration in Hstep; by rewrite Hrun, Hsel in Hstep].
      rewrite (iteration_unfold k o s s1 Hrun Hsel) in Hstep. injection Hstep as <-.
      destruct (Select_end_chat_channel k o s s1 Hsel) as [Hr1 _].
      destruct (endChatChan s1) as [|m rest]; [by rewrite Hr1, Hrun|].
      cbn. by intros [= <- <-].
Qed.

Lemma greeting_returned (o : Outcome) (name : string) :
  returned (greeting o name) =
    match o with
    | Succeeds => None
    | FailsWith err => Some ("", Some err)
    end.
Proof. by destruct o. Qed.

Lemma returned_was_delivered (name : string) (evs : list Event) (s : Instance) (v : string) :
  SayHelloWorkflow name Succeeds evs = Some s → returned s = Some (v, None) →
  v ∈ delivered end_chat evs.
Proof.
  intros Hrun Hret.
  rewrite <- (run_conserves end_chat (greeting Succeeds name) evs s eq_refl Hrun).
  unfold probed. rewrite Hret. set_solver.
Qed.

(** The workflow fails only through its initial greeting.  If that
    fails the function has returned [("", err)] and nothing more can
    happen to the instance.  If it succeeds the function never returns
    an error, whatever the later activities do: when it returns, it
    returns the value [result] holds, and that value is a payload that
    was delivered on the end-chat channel. *)
Theorem workflow_fails_only_at_greeting (name : string) (o : Outcome) (evs : list Event)
    (s : Instance) :
  SayHelloWorkflow name o evs = Some s →
  match o with
  | FailsWith err => evs = [] ∧ returned s = Some ("", Some err) ∧ result s = ""
  | Succeeds =>
      ∀ v e, returned s = Some (v, e) →
             e = None ∧ v = result s ∧ v ∈ delivered end_chat evs
  end.
Proof.
  intros Hrun. destruct o as [|err].
  - intros v e Hret.
    destruct (run_return_value (greeting Succeeds name) evs s eq_refl Hrun v e Hret)
      as [-> Hv].
    repeat split; [done|]. by eapply returned_was_delivered.
  - destruct (run_returned_nil evs (greeting (FailsWith err) name) s) as [-> ->];
      [done | exact Hrun | done].
Qed.

Lemma workflow_fails_only_at_greeting_witness :
  let s := {| userPromptChan := []; confirmChan := []; endChatChan := [];
              result := "bye"; scheduled := ["Hello World"; "hi"];
              logger := [Info "Received user_prompt signal" "hi";
                         Error "Error processing user prompt" "timeout"];
              returned := Some ("bye", None) |} in
  "bye" = result s ∧ "bye" ∈ ["bye"].
Proof.
  intros s.
  exact (proj2 (workflow_fails_only_at_greeting "Hello World" Succeeds
                  [Deliver (UserPrompt "hi"); Deliver (EndChat "bye");
                   Pass user_prompt (FailsWith "timeout")] s eq_refl
                  "bye" None eq_refl)).
Defined.

Lemma idle_deliver_pass_any (sig : Signal) (s : Instance) :
  idle s →
  ∃ s', run [Deliver sig; Pass (signalName sig) Succeeds] s = Some s' ∧ idle s' ∧
        processed s' = processed s ++ [sig] ∧ result s' = resultAfter sig.
Proof.
  intros Hidle. destruct (decide (signalName sig = end_chat)) as [Hk|Hk];
    [|by apply idle_deliver_pass].
  destruct sig as [m|m|m]; try done.
  destruct s as [u c e r sc lg rt]. destruct Hidle as (Hu & Hc & He & Hr).
  cbn in *. subst. eexists. split; [reflexivity|].
  unfold idle, processed. cbn. rewrite omap_app. repeat split; by rewrite ?app_nil_r.
Qed.

Lemma oneByOne_run_any (sigs : list Signal) :
  ∀ s, idle s →
  ∃ s', run (oneByOne sigs) s = Some s' ∧ idle s' ∧
        processed s' = processed s ++ sigs ∧
        result s' = from_option resultAfter (result s) (last sigs).
Proof.
  induction sigs as [|sig sigs IH]; intros s Hidle.
  - exists s. cbn. by rewrite app_nil_r.
  - destruct (idle_deliver_pass_any sig s Hidle) as (s1 & Hrun1 & Hidle1 & Hp1 & Hr1).
    destruct (IH s1 Hidle1) as (s' & Hrun' & Hidle' & Hp' & Hr').
    exists s'. repeat split; try apply Hidle'.
    + change (oneByOne (sig :: sigs))
        with ([Deliver sig; Pass (signalName sig) Succeeds] ++ oneByOne sigs).
      rewrite run_app, Hrun1. exact Hrun'.
    + rewrite Hp', Hp1. by rewrite <- app_assoc.
    + rewrite Hr', Hr1, last_cons. by destruct (last sigs).
Qed.

(** When every signal is processed before the next one arrives, the
    function never returns, whatever the signals are, [EndChat]
    included: after any such history the instance waits in its loop
    with empty channels, has processed the signals in their order, and
    [result] is what the last one wrote (["Chat ended: " + m] after
    [EndChat(m)]). *)
Theorem one_at_a_time_never_returns (name : string) (sigs : list Signal) :
  ∃ s, SayHelloWorkflow name Succeeds (oneByOne sigs) = Some s ∧
       returned s = None ∧ buffered s = 0 ∧ processed s = sigs ∧
       result s = match last sigs with
                  | None => Greet name
                  | Some (UserPrompt m) => Greet m
                  | Some (Confirm m) => Greet ("Confirmed: " +:+ m)
                  | Some (EndChat m) => "Chat ended: " +:+ m
                  end.
Proof.
  destruct (oneByOne_run_any sigs (greeting Succeeds name)) as (s & Hrun & Hidle & Hp & Hr);
    [done|].
  exists s. destruct Hidle as (Hu & Hc & He & Hret).
  split; [exact Hrun|]. split; [exact Hret|].
  split; [unfold buffered; by rewrite Hu, Hc, He|]. split; [exact Hp|].
  rewrite Hr. by destruct (last sigs) as [[m|m|m]|].
Qed.

End HistoryFacts.

(** ** Requests and replies *)

Section ReplyFacts.

Import Workflows History Api Router.

Lemma to_int_proper (z : Z) :
  Z.to_int z ≠ Decimal.Pos Decimal.Nil ∧ Z.to_int z ≠ Decimal.Neg Decimal.Nil.
Proof.
  destruct z as [|p|p]; cbn; split; try discriminate; intros [= Hp];
    by apply DecimalPos.Unsigned.to_uint_nonnil in Hp.
Qed.

(** Workflow ids are the clock reading in decimal behind a fixed prefix:
    two start requests get the same id exactly when they read the same
    clock value. *)
Theorem workflowID_injective (now now' : Z) :
  workflowID now = workflowID now' → now = now'.
Proof.
  unfold workflowID. intros Hid. cbn in Hid. injection Hid as Hid.
  change (NilZero.string_of_int (Z.to_int now) = NilZero.string_of_int (Z.to_int now')) in Hid.
  apply DecimalZ.to_int_inj.
  assert (Some (Z.to_int now) = Some (Z.to_int now')) as [= ->]; [|done].
  rewrite <- (NilZero.isi (Z.to_int now)), <- (NilZero.isi (Z.to_int now'))
    by apply to_int_proper.
  by rewrite Hid.
Qed.

Lemma workflowID_injective_witness :
  workflowID 1700000000000000000 = "chat-workflow-1700000000000000000" ∧
  1700000000000000000%Z = 1700000000000000000%Z.
Proof.
  split; [vm_compute; reflexivity|].
  apply workflowID_injective. reflexivity.
Defined.

Context (srv : Server) (now : Z).

(** Settles the four facts of [reply_classes] for a reply that is
    written out. *)
Ltac classify_reply :=
  unfold StatusOK, StatusBadRequest, StatusInternalServerError; cbn;
  split; [auto|]; split; [split; intros; done|];
  split; intros; [first [done | split; [done | eauto]] | done].

(** Every reply of the four handlers that read a body is a 200, a 400
    or a 500.  It is a 400 exactly when the handler made no call on the
    engine, and then it is plain text; every other reply is JSON. *)
Theorem reply_classes (r : Route) (b : RequestBody) (resp : Response) :
  reply (serve r srv now b) = Some resp →
  (StatusCode resp = 200%Z ∨ StatusCode resp = 400%Z ∨ StatusCode resp = 500%Z) ∧
  (StatusCode resp = 400%Z ↔ calls (serve r srv now b) = []) ∧
  (StatusCode resp = 400%Z →
     ContentType resp = "text/plain; charset=utf-8" ∧ ∃ text, Body resp = PlainText text) ∧
  (StatusCode resp ≠ 400%Z → ContentType resp = "application/json").
Proof.
  destruct b as [|obj].
  - rewrite serve_Undecodable. cbn. intros [= <-]. classify_reply.
  - destruct r; cbn;
      [unfold handleStartWorkflow | unfold handleUserPromptSignal, forwardSignal
      | unfold handleConfirmSignal, forwardSignal | unfold handleEndChatSignal, forwardSignal];
      cbn; case_bool_decide; cbn; try (intros [= <-]; classify_reply).
    + destruct (ExecuteWorkflow _ _ _ _) as [err|we]; cbn;
        [|destruct (Get we) as [[err|v]|]; cbn; [| |done]];
        intros [= <-]; classify_reply.
    + destruct (SignalWorkflow _ _ _ _ _); cbn; intros [= <-]; classify_reply.
    + destruct (SignalWorkflow _ _ _ _ _); cbn; intros [= <-]; classify_reply.
    + destruct (SignalWorkflow _ _ _ _ _); cbn; intros [= <-]; classify_reply.
Qed.

(** A signal request that names a workflow is passed to the engine as
    it came: one [SignalWorkflow] call with the request's workflow id,
    run id and message unchanged, under the name of a channel the
    workflow listens on (a different one for each route).  The reply is
    the engine's verdict: 200 with [success: true] when it reports no
    error, 500 with [success: false] and the engine's error text when it
    does. *)
Theorem signals_forwarded_verbatim (r : Route) (obj : JsonObject) (id : string) :
  r ≠ StartWorkflow → workflow_id obj = Some id → id ≠ "" →
  let run := default "" (run_id obj) in
  let msg := default "" (message obj) in
  calls (serve r srv now (Decodable obj)) = [CallSignalWorkflow id run (signalOf r) msg] ∧
  reply (serve r srv now (Decodable obj)) =
    Some (match SignalWorkflow (temporalClient srv) id run (signalOf r) msg with
          | None =>
              {| StatusCode := 200; ContentType := "application/json";
            Body := SignalJSON {| SignalResponse.Success := true;
                                  SignalResponse.Error := "" |} |}
          | Some err =>
              {| StatusCode := 500; ContentType := "application/json";
            Body := SignalJSON {| SignalResponse.Success := false;
                                  SignalResponse.Error := err |} |}
          end) ∧
  signalOf r = channelName (match r with
                            | SignalConfirm => confirm
                            | SignalEndChat => end_chat
                            | _ => user_prompt
                            end).
Proof.
  intros Hr Hid Hne run msg. rewrite serve_signal by done.
  unfold forwardSignal. cbn. rewrite Hid. cbn.
  rewrite bool_decide_eq_false_2 by done. fold run msg.
  destruct (SignalWorkflow _ _ _ _ _); by destruct r.
Qed.

(** What a start request with a message does on the engine, and how the
    engine's failures come back: a failed [ExecuteWorkflow] gives 500
    with the error and no ids, and [Get] is not called; a failed [Get]
    gives 500 with the error and the ids of the started execution; a
    [Get] that yields a value gives 200 with the ids and that value. *)
Theorem start_reports_engine_failures (obj : JsonObject) (m : string) :
  message obj = Some m → m ≠ "" →
  let h := handleStartWorkflow srv now (Decodable obj) in
  let started := CallExecuteWorkflow (workflowID now) (taskQueue srv) m in
  match ExecuteWorkflow (temporalClient srv) (workflowID now) (taskQueue srv) m with
  | inl err =>
      calls h = [started] ∧
      reply h =
        Some {| StatusCode := 500; ContentType := "application/json";
            Body := ChatJSON {| ChatResponse.WorkflowID := "";
                                ChatResponse.RunID := "";
                                ChatResponse.Result := "";
                                ChatResponse.Error := err |} |}
  | inr we =>
      calls h = [started; CallGet (GetID we)] ∧
      reply h =
        match Get we with
        | None => None
        | Some (inl err) =>
            Some {| StatusCode := 500; ContentType := "application/json";
            Body := ChatJSON {| ChatResponse.WorkflowID := GetID we;
                                ChatResponse.RunID := GetRunID we;
                                ChatResponse.Result := "";
                                ChatResponse.Error := err |} |}
        | Some (inr v) =>
            Some {| StatusCode := 200; ContentType := "application/json";
            Body := ChatJSON {| ChatResponse.WorkflowID := GetID we;
                                ChatResponse.RunID := GetRunID we;
                                ChatResponse.Result := v;
                                ChatResponse.Error := "" |} |}
        end
  end.
Proof.
  intros Hm Hne. cbn zeta. unfold handleStartWorkflow. cbn. rewrite Hm. cbn.
  rewrite bool_decide_eq_false_2 by done.
  destruct (ExecuteWorkflow _ _ _ _) as [err|we]; [done|].
  by destruct (Get we) as [[err|v]|].
Qed.

(** A request reaches a handler exactly through that handler's route;
    in particular only a POST can lead to a call on the engine, and the
    one GET route, the health check, never calls it. *)
Theorem handlers_reached_by_route (method path : string) (h : Handler) (b : RequestBody) :
  (routed method path = Some h ↔ (path, method, h) ∈ routes) ∧
  (routed method path = Some h → calls (handle h srv now b) ≠ [] →
   method = "POST" ∧ h ≠ HandleHealth) ∧
  (routed method path = Some h → method = "GET" →
   handle h srv now b = {| calls := []; reply := Some (writeJSON 200 (HealthJSON "healthy")) |}).
Proof.
  assert (routed method path = Some h ↔ (path, method, h) ∈ routes) as Hiff.
  { unfold routed, routes. cbn. rewrite !elem_of_cons, elem_of_nil.
    repeat (destruct (decide _) as [[<- <-]|?]; cbn;
            [split; [intros [= <-]; tauto | intros Hor; decompose [or] Hor; by simplify_eq]|]).
    split; [done|]. intros Hor. decompose [or] Hor; simplify_eq;
      match goal with H : ¬ _ |- _ => by destruct H end. }
  split; [exact Hiff|].
  split; intros Hr; apply Hiff in Hr; unfold routes in Hr;
    rewrite !elem_of_cons, elem_of_nil in Hr; decompose [or] Hr; try done;
    match goal with H : (_, _, _) = _ |- _ => injection H as -> -> -> end; done.
Qed.

End ReplyFacts.

(** ** A start request against the workflow it starts *)

Section StartOverHistory.

Import Workflows History Api.

(** On an engine that hosts the workflow, a start request is answered
    only by the workflow's return: with 500 and the activity's error
    when the initial greeting failed; otherwise with 200 and the value
    the function returned, which is a payload someone delivered on the
    end-chat channel; and not at all as long as the function stays in
    its loop, which it does for every history in which the signals are
    processed one at a time. *)
Theorem start_reply_is_workflow_return (runID queue name : string) (now : Z)
    (o : Outcome) (evs : list Event) (obj : JsonObject) :
  message obj = Some name → name ≠ "" →
  let srv := {| temporalClient := hosting runID o evs; taskQueue := queue |} in
  let h := handleStartWorkflow srv now (Decodable obj) in
  (∀ resp, reply h = Some resp →
     match o with
     | Succeeds =>
         ∃ v, resp =
              {| StatusCode := 200; ContentType := "application/json";
            Body := ChatJSON {| ChatResponse.WorkflowID := workflowID now;
                                ChatResponse.RunID := runID;
                                ChatResponse.Result := v;
                                ChatResponse.Error := "" |} |} ∧
              v ∈ delivered end_chat evs
     | FailsWith err =>
         evs = [] ∧
         resp =
           {| StatusCode := 500; ContentType := "application/json";
            Body := ChatJSON {| ChatResponse.WorkflowID := workflowID now;
                                ChatResponse.RunID := runID;
                                ChatResponse.Result := "";
                                ChatResponse.Error := err |} |}
     end) ∧
  (∀ err, o = FailsWith err → evs = [] →
     reply h =
       Some {| StatusCode := 500; ContentType := "application/json";
            Body := ChatJSON {| ChatResponse.WorkflowID := workflowID now;
                                ChatResponse.RunID := runID;
                                ChatResponse.Result := "";
                                ChatResponse.Error := err |} |}) ∧
  (∀ sigs, o = Succeeds → evs = oneByOne sigs → reply h = None).
Proof.
  intros Hm Hne. cbn zeta. unfold handleStartWorkflow. cbn. rewrite Hm. cbn.
  rewrite bool_decide_eq_false_2 by done. cbn. split; [|split].
  - intros resp.
    destruct (SayHelloWorkflow name o evs) as [s|] eqn:Hrun; [|done]. cbn.
    unfold await. destruct (returned s) as [[v [e|]]|] eqn:Hret; [| |done].
    + intros [= <-]. destruct o as [|err].
      * by destruct (run_return_value (greeting Succeeds name) evs s eq_refl Hrun v (Some e) Hret).
      * destruct (run_returned_nil evs (greeting (FailsWith err) name) s) as [-> ->];
          [done | exact Hrun |].
        cbn in Hret. by injection Hret as <- <-.
    + intros [= <-]. destruct o as [|err].
      * exists v. split; [done|]. by eapply returned_was_delivered.
      * destruct (run_returned_nil evs (greeting (FailsWith err) name) s) as [-> ->];
          [done | exact Hrun |]. done.
  - by intros err -> ->.
  - intros sigs -> ->.
    destruct (oneByOne_run_any sigs (greeting Succeeds name)) as (s & Hrun & Hidle & _);
      [done|].
    unfold SayHelloWorkflow. rewrite Hrun. cbn. unfold await.
    destruct Hidle as (_ & _ & _ & ->). done.
Qed.

Lemma start_reply_is_workflow_return_witness :
  let obj := {| message := Some "Hello World"; workflow_id := None; run_id := None |} in
  let srv := {| temporalClient :=
                  hosting "run-1" Succeeds
                    (oneByOne [UserPrompt "hi"; EndChat "Goodbye"]);
                taskQueue := "my-task-queue" |} in
  reply (handleStartWorkflow srv 1 (Decodable obj)) = None.
Proof.
  intros obj srv.
  destruct (start_reply_is_workflow_return "run-1" "my-task-queue" "Hello World" 1
              Succeeds (oneByOne [UserPrompt "hi"; EndChat "Goodbye"]) obj)
    as (_ & _ & Hloop); [reflexivity | done |].
  exact (Hloop [UserPrompt "hi"; EndChat "Goodbye"] eq_refl eq_refl).
Defined.

End StartOverHistory.

Section ReplyWitnesses.

Import Workflows History Api Router.

Let srv : Server := {| temporalClient := quiet; taskQueue := "my-task-queue" |}.

Let refusing : Server :=
  {| temporalClient :=
       {| ExecuteWorkflow _ _ _ := inl "engine unavailable";
          SignalWorkflow _ _ _ _ := Some "workflow not found" |};
     taskQueue := "my-task-queue" |}.

Lemma reply_classes_witness :
  let obj := {| message := Some "hi"; workflow_id := Some "chat-workflow-1"; run_id := None |} in
  calls (serve SignalConfirm refusing 1 (Decodable obj)) ≠ [] ∧
  ContentType (writeJSON 500 (SignalJSON (SignalResponse.mk false "workflow not found")))
  = "application/json".
Proof.
  intros obj.
  destruct (reply_classes refusing 1 SignalConfirm (Decodable obj)
              (writeJSON 500 (SignalJSON (SignalResponse.mk false "workflow not found")))
              eq_refl) as (_ & Hcalls & _ & Hjson).
  split; [|by apply Hjson].
  intros Hnone. by apply Hcalls in Hnone.
Defined.

Lemma signals_forwarded_verbatim_witness :
  let obj := {| message := Some "What's the weather?";
                workflow_id := Some "chat-workflow-1"; run_id := Some "run-1" |} in
  calls (handleUserPromptSignal refusing (Decodable obj)) =
    [CallSignalWorkflow "chat-workflow-1" "run-1" "user_prompt" "What's the weather?"] ∧
  reply (handleUserPromptSignal refusing (Decodable obj)) =
    Some {| StatusCode := 500; ContentType := "application/json";
            Body := SignalJSON {| SignalResponse.Success := false;
                                  SignalResponse.Error := "workflow not found" |} |}.
Proof.
  intros obj.
  destruct (signals_forwarded_verbatim refusing 1 SignalUserPrompt obj "chat-workflow-1")
    as (Hcalls & Hreply & _); [done | reflexivity | done |].
  split; [exact Hcalls | exact Hreply].
Defined.

Lemma start_reports_engine_failures_witness :
  let obj := {| message := Some "Hello World"; workflow_id := None; run_id := None |} in
  calls (handleStartWorkflow refusing 1 (Decodable obj)) =
    [CallExecuteWorkflow "chat-workflow-1" "my-task-queue" "Hello World"] ∧
  reply (handleStartWorkflow refusing 1 (Decodable obj)) =
    Some {| StatusCode := 500; ContentType := "application/json";
            Body := ChatJSON {| ChatResponse.WorkflowID := "";
                                ChatResponse.RunID := "";
                                ChatResponse.Result := "";
                                ChatResponse.Error := "engine unavailable" |} |}.
Proof.
  intros obj.
  exact (start_reports_engine_failures refusing 1 obj "Hello World" eq_refl
           ltac:(discriminate)).
Defined.

Lemma handlers_reached_by_route_witness :
  routed "POST" "/signal/end-chat" = Some HandleEndChatSignal ∧
  routed "GET" "/signal/end-chat" = None ∧
  handle HandleHealth srv 1 Undecodable =
    {| calls := []; reply := Some (writeJSON 200 (HealthJSON "healthy")) |}.
Proof.
  split; [|split].
  - apply (handlers_reached_by_route srv 1 "POST" "/signal/end-chat" HandleEndChatSignal
             Undecodable).
    unfold routes. rewrite !elem_of_cons. tauto.
  - reflexivity.
  - apply (handlers_reached_by_route srv 1 "GET" "/health" HandleHealth Undecodable);
      reflexivity.
Defined.

End ReplyWitnesses.
